(** * clinic12: a shallow embedding of [app.py]

    The application is a Flask program over two SQLAlchemy tables.  The
    tables are lists of rows in insertion order, the session cookie is the
    optional id that Flask-Login keeps in it, and every handler is a function
    from the store, the session and the request to an outcome: a response,
    the messages flashed, the session and the store afterwards.  What the
    process draws from its surroundings (the clock, [uuid.uuid4], the bcrypt
    salt) is an explicit argument. *)

From Stdlib Require Import ZArith List String Ascii Bool Lia.
From Stdlib Require Import Sorting.Sorted Sorting.Permutation.
Import ListNotations.

Local Open Scope string_scope.
Local Open Scope Z_scope.

(** ** Configuration: the database URL (app.py, lines 13-17) *)

Module Config.

(** [os.environ] restricted to the one variable read here:
    [os.environ.get("DATABASE_URL", ...)]. *)
Definition Environ := option string.

(** [s.startswith(p)] *)
Definition startswith (s p : string) : bool := String.prefix p s.

(** [s[n:]] *)
Fixpoint drop (n : nat) (s : string) : string :=
  match n, s with
  | O, _ => s
  | S _, EmptyString => EmptyString
  | S n', String _ s' => drop n' s'
  end.

(** [s.replace(old, new, 1)]: the leftmost occurrence of [old] in [s] is
    replaced by [new], and [s] is returned as it is when there is none. *)
Fixpoint replace1 (old new s : string) : string :=
  if String.prefix old s then new ++ drop (String.length old) s
  else match s with
       | EmptyString => EmptyString
       | String c s' => String c (replace1 old new s')
       end.

Definition db_url (environ : Environ) : string :=
  let db_url := match environ with
                | Some v => v
                | None => "sqlite:///clinic.db"
                end in
  if startswith db_url "postgres://"
  then replace1 "postgres://" "postgresql://" db_url
  else db_url.

End Config.

(** ** Models (app.py, lines 26-41)

    A row is a record of its columns, a table the list of its rows in
    insertion order.  [Patient.doctor_id] is declared
    without [nullable=False], so it is an optional reference; the columns
    filled by a Python-side default ([patient_id], [notes], [created_at])
    carry their value.  Timestamps are integers, strings are byte strings. *)

Module Doctor.
Record t := mk
  { id : Z;
    username : string;
    password_hash : string;
    full_name : option string;
    specialty : option string;
    created_at : Z }.
End Doctor.

Module Patient.
Record t := mk
  { id : Z;
    patient_id : string;
    name : string;
    notes : string;
    created_at : Z;
    doctor_id : option Z }.
End Patient.

Record Store := mkStore
  { tbl_doctor : list Doctor.t;
    tbl_patient : list Patient.t }.

Definition empty_store : Store := mkStore [] [].

(** The integer primary key of a new row: one past the largest key in use. *)
Definition next_id (ids : list Z) : Z := 1 + fold_right Z.max 0 ids.

(** ** The storage engine's operators *)

(** The engine is SQLite, the default of line 13, and reads a text as
    UTF-8 up to its first NUL byte.  A byte [10xxxxxx] continues a character
    and a byte [11xxxxxx] opens one of several bytes. *)
Definition is_nul (b : ascii) : bool := Ascii.eqb b "000".

Definition is_continuation (b : ascii) : bool :=
  match b with Ascii _ _ _ _ _ _ b6 b7 => b7 && negb b6 end.

Definition opens_multibyte (b : ascii) : bool :=
  match b with Ascii _ _ _ _ _ _ b6 b7 => b7 && b6 end.

(** An ASCII capital as its small letter, any other byte as it is: what
    the engine's LIKE compares. *)
Definition fold_case (b : ascii) : ascii :=
  let n := nat_of_ascii b in
  if ((65 <=? n) && (n <=? 90))%nat then ascii_of_nat (n + 32) else b.

Definition at_end (s : string) : bool :=
  match s with
  | EmptyString => true
  | String b _ => is_nul b
  end.

(** What is left of a character once its first byte has been read. *)
Fixpoint drop_continuation (s : string) : string :=
  match s with
  | EmptyString => EmptyString
  | String b s' => if is_continuation b then drop_continuation s' else s
  end.

(** [%] before the rest of a pattern: the rest is tried where a character
    of [s] begins, from the left, and at the end of [s]; [skipping] says
    that the bytes read last are inside a character. *)
Fixpoint scan (rest : string -> bool) (skipping : bool) (s : string) : bool :=
  match s with
  | EmptyString => rest EmptyString
  | String b s' =>
      if is_nul b then rest s
      else if skipping && is_continuation b then scan rest true s'
      else rest s || scan rest (opens_multibyte b) s'
  end.

(** [column LIKE pattern]: [%] stands for any run of characters, [_] for
    any one character, every other byte for itself, ASCII letters without
    regard to case.  The pattern has no escape character. *)
Fixpoint like (pattern : string) : string -> bool :=
  match pattern with
  | EmptyString => at_end
  | String c pattern' =>
      if is_nul c then at_end
      else if Ascii.eqb c "%" then scan (like pattern') false
      else if Ascii.eqb c "_" then
        fun s =>
          match s with
          | EmptyString => false
          | String b s' =>
              negb (is_nul b)
              && like pattern'
                   (if opens_multibyte b then drop_continuation s' else s')
          end
      else
        fun s =>
          match s with
          | EmptyString => false
          | String d s' =>
              Ascii.eqb (fold_case c) (fold_case d) && like pattern' s'
          end
  end.

(** [column.contains(other)] of the ORM, which it renders as
    [column LIKE '%' || other || '%']: [other] goes into the pattern as it
    is, so a [%] or [_] in it is a wildcard.  The engine refuses a pattern
    of more than 50000 bytes; the views are embedded without that refusal,
    and a property that depends on it bounds the term. *)
Definition contains (column other : string) : bool :=
  like ("%" ++ other ++ "%") column.

(** [query.order_by(Patient.created_at.desc())]: a stable insertion sort,
    newest first. *)
Fixpoint insert_desc (p : Patient.t) (l : list Patient.t) : list Patient.t :=
  match l with
  | [] => [p]
  | q :: l' =>
      if Patient.created_at q <=? Patient.created_at p
      then p :: q :: l'
      else q :: insert_desc p l'
  end.

Definition order_by_created_at_desc (l : list Patient.t) : list Patient.t :=
  fold_right insert_desc [] l.

(** [column == value] on a nullable integer column: NULL equals nothing. *)
Definition column_eq (column : option Z) (value : Z) : bool :=
  match column with
  | Some v => v =? value
  | None => false
  end.

(** ** Requests, responses and the handler monad *)

Inductive Method := GET | POST.

(** Werkzeug's [MultiDict] ([request.args], [request.form]): the pairs in
    the order they were sent; a key reads its first value. *)
Definition MultiDict := list (string * string).

Record Request := mkRequest
  { method : Method;
    args : MultiDict;
    form : MultiDict }.

(** What a request draws from outside the program: [datetime.utcnow()],
    [str(uuid.uuid4())] and the salt bcrypt generates. *)
Record Env := mkEnv
  { utcnow : Z;
    uuid4 : string;
    gensalt : string }.

(** The session cookie, as far as Flask-Login uses it: the id of the user
    logged in, if any. *)
Definition Session := option Z.

Inductive Endpoint := ep_login | ep_dashboard | ep_patients.

Inductive Page :=
| login_html
| dashboard_html (doctor : Doctor.t) (doctors : option (list Doctor.t))
| patients_html (patients : list Patient.t)
| add_doctor_html (doctors : list Doctor.t).

Inductive Response :=
| redirect (target : Endpoint)
| render_template (page : Page)
| abort (status : Z).

(** [BadRequestKeyError] is what [request.form[key]] raises on a missing
    key; [IntegrityError] is a uniqueness constraint refusing a commit;
    [ValueError] is bcrypt refusing its input. *)
Inductive Exn :=
| BadRequestKeyError (key : string)
| IntegrityError
| ValueError.

Record World := mkWorld
  { db : Store;
    session : Session;
    flashes : list string }.

Definition M (A : Type) : Type := World -> Exn + (A * World).

Definition ret {A} (a : A) : M A := fun w => inr (a, w).

Definition bind {A B} (m : M A) (k : A -> M B) : M B :=
  fun w => match m w with
           | inl e => inl e
           | inr (a, w') => k a w'
           end.

Definition raise {A} (e : Exn) : M A := fun _ => inl e.

Declare Scope handler_scope.
Delimit Scope handler_scope with handler.
Notation "x <- m ;; k" := (bind m (fun x => k))
  (at level 61, m at next level, right associativity) : handler_scope.
Notation "m ;; k" := (bind m (fun _ => k))
  (at level 61, right associativity) : handler_scope.
Local Open Scope handler_scope.

(** [d.get(key)] *)
Fixpoint get (d : MultiDict) (key : string) : option string :=
  match d with
  | [] => None
  | (k, v) :: d' => if String.eqb k key then Some v else get d' key
  end.

(** [d[key]] *)
Definition getitem (d : MultiDict) (key : string) : M string :=
  match get d key with
  | Some v => ret v
  | None => raise (BadRequestKeyError key)
  end.

(** [flash(message)] *)
Definition flash (message : string) : M unit :=
  fun w => inr (tt, mkWorld (db w) (session w) (flashes w ++ [message])).

(** [Doctor.query.get(id)] *)
Definition Doctor_get (st : Store) (i : Z) : option Doctor.t :=
  find (fun d => Doctor.id d =? i) (tbl_doctor st).

(** [load_user] (lines 43-45), applied to the id kept in the session:
    Flask-Login's [current_user]; [None] is the anonymous user. *)
Definition load_user (st : Store) (s : Session) : option Doctor.t :=
  match s with
  | Some user_id => Doctor_get st user_id
  | None => None
  end.

Definition current_user : M (option Doctor.t) :=
  fun w => inr (load_user (db w) (session w), w).

(** [login_user(user)] and [logout_user()] *)
Definition login_user (user : Doctor.t) : M unit :=
  fun w => inr (tt, mkWorld (db w) (Some (Doctor.id user)) (flashes w)).

Definition logout_user : M unit :=
  fun w => inr (tt, mkWorld (db w) None (flashes w)).

(** A query reads the store. *)
Definition query {A} (q : Store -> A) : M A := fun w => inr (q (db w), w).

(** [Doctor.query.filter_by(username=u).first()] *)
Definition Doctor_by_username (u : string) (st : Store) : option Doctor.t :=
  find (fun d => String.eqb (Doctor.username d) u) (tbl_doctor st).

(** [Doctor.query.filter(Doctor.username != "admin").all()] *)
Definition Doctor_except_admin (st : Store) : list Doctor.t :=
  filter (fun d => negb (String.eqb (Doctor.username d) "admin"))
    (tbl_doctor st).

(** Lines 82-85 and lines 87-89. *)
Definition Patient_search (doctor : Z) (search_term : string) (st : Store)
  : list Patient.t :=
  order_by_created_at_desc
    (filter (fun p => column_eq (Patient.doctor_id p) doctor
                      && (contains (Patient.name p) search_term
                          || contains (Patient.patient_id p) search_term))
            (tbl_patient st)).

Definition Patient_of_doctor (doctor : Z) (st : Store) : list Patient.t :=
  order_by_created_at_desc
    (filter (fun p => column_eq (Patient.doctor_id p) doctor) (tbl_patient st)).

(** [db.session.add(row); db.session.commit()].  The INSERT gives the row
    its primary key and its column defaults, and the unique column
    ([Doctor.username], [Patient.patient_id]) refuses a value in use. *)
Definition add_Doctor (env : Env) (username password_hash : string)
    (full_name specialty : option string) : M Doctor.t :=
  fun w =>
    let st := db w in
    if existsb (fun d => String.eqb (Doctor.username d) username)
         (tbl_doctor st)
    then inl IntegrityError
    else
      let d := Doctor.mk (next_id (map Doctor.id (tbl_doctor st))) username
                 password_hash full_name specialty (utcnow env) in
      inr (d, mkWorld (mkStore (tbl_doctor st ++ [d]) (tbl_patient st))
                (session w) (flashes w)).

Definition add_Patient (env : Env) (name notes : string) (doctor : Doctor.t)
  : M Patient.t :=
  fun w =>
    let st := db w in
    if existsb (fun p => String.eqb (Patient.patient_id p) (uuid4 env))
         (tbl_patient st)
    then inl IntegrityError
    else
      let p := Patient.mk (next_id (map Patient.id (tbl_patient st)))
                 (uuid4 env) name notes (utcnow env)
                 (Some (Doctor.id doctor)) in
      inr (p, mkWorld (mkStore (tbl_doctor st) (tbl_patient st ++ [p]))
                (session w) (flashes w)).

(** Flask-Bcrypt.  [generate_password_hash salt password] is the hash the
    library computes once it has drawn [salt], [check_password_hash pw_hash
    password] its verdict; [None] is the call raising [ValueError], as the
    library does on a password it does not take (with bcrypt 5, one of more
    than 72 bytes). *)
Class Bcrypt := mkBcrypt
  { generate_password_hash : string -> string -> option string;
    check_password_hash : string -> string -> option bool }.

(** A call into the library from a view. *)
Definition bcrypt_call {A} (result : option A) : M A :=
  match result with
  | Some a => ret a
  | None => raise ValueError
  end.

(** Python's truth value of [request.args.get('search')]. *)
Definition truthy (v : option string) : bool :=
  match v with
  | Some (String _ _) => true
  | _ => false
  end.

Definition is_POST (m : Method) : bool :=
  match m with POST => true | GET => false end.

(** ** Routes (app.py, lines 48-129) *)

Section Routes.

Context {bcrypt : Bcrypt}.

(** Lines 48-62. *)
Definition login (request : Request) : M Response :=
  user <- current_user ;;
  match user with
  | Some _ => ret (redirect ep_dashboard)
  | None =>
      if is_POST (method request) then
        username <- getitem (form request) "username" ;;
        user <- query (Doctor_by_username username) ;;
        match user with
        | None =>
            flash "بيانات الدخول غير صحيحة" ;;
            ret (redirect ep_login)
        | Some user =>
            password <- getitem (form request) "password" ;;
            verified <-
              bcrypt_call
                (check_password_hash (Doctor.password_hash user) password) ;;
            if negb verified
            then
              flash "بيانات الدخول غير صحيحة" ;;
              ret (redirect ep_login)
            else
              login_user user ;;
              ret (redirect ep_dashboard)
        end
      else ret (render_template login_html)
  end.

(** Lines 64-73. *)
Definition dashboard (request : Request) : M Response :=
  user <- current_user ;;
  match user with
  | None => ret (redirect ep_login)
  | Some user =>
      if String.eqb (Doctor.username user) "admin" then
        doctors <- query Doctor_except_admin ;;
        ret (render_template (dashboard_html user (Some doctors)))
      else ret (render_template (dashboard_html user None))
  end.

(** Lines 75-100. *)
Definition patients (env : Env) (request : Request) : M Response :=
  user <- current_user ;;
  match user with
  | None => ret (redirect ep_login)
  | Some user =>
      let search_term := get (args request) "search" in
      patient_list <-
        (if truthy search_term
         then query (Patient_search (Doctor.id user)
                       (match search_term with Some s => s | None => "" end))
         else query (Patient_of_doctor (Doctor.id user))) ;;
      if is_POST (method request) then
        name <- getitem (form request) "name" ;;
        notes <- getitem (form request) "notes" ;;
        patient <- add_Patient env name notes user ;;
        flash ("تم إضافة المريض بنجاح. رقم المريض: "
               ++ Patient.patient_id patient) ;;
        ret (redirect ep_patients)
      else ret (render_template (patients_html patient_list))
  end.

(** Lines 102-124. *)
Definition add_doctor (env : Env) (request : Request) : M Response :=
  user <- current_user ;;
  match user with
  | None => ret (redirect ep_login)
  | Some user =>
      if negb (String.eqb (Doctor.username user) "admin")
      then ret (redirect ep_login)
      else
        let roster :=
          doctors <- query Doctor_except_admin ;;
          ret (render_template (add_doctor_html doctors)) in
        if is_POST (method request) then
          username <- getitem (form request) "username" ;;
          full_name <- getitem (form request) "full_name" ;;
          specialty <- getitem (form request) "specialty" ;;
          password <- getitem (form request) "password" ;;
          existing <- query (Doctor_by_username username) ;;
          match existing with
          | Some _ =>
              flash "اسم المستخدم موجود بالفعل" ;;
              roster
          | None =>
              hashed <-
                bcrypt_call
                  (generate_password_hash (gensalt env) password) ;;
              add_Doctor env username hashed (Some full_name)
                (Some specialty) ;;
              flash "تم إضافة الدكتور بنجاح" ;;
              ret (redirect ep_dashboard)
          end
        else roster
  end.

(** Lines 126-129. *)
Definition logout (request : Request) : M Response :=
  logout_user ;;
  ret (redirect ep_login).

(** Lines 131-138; [db.create_all()] has no rows to add. *)
Definition initialize (env : Env) : M unit :=
  admin <- query (Doctor_by_username "admin") ;;
  match admin with
  | Some _ => ret tt
  | None =>
      password <-
        bcrypt_call (generate_password_hash (gensalt env) "admin123") ;;
      add_Doctor env "admin" password (Some "Admin") None ;;
      ret tt
  end.

(** ** Serving a request

    What a client and the database see of one call of a view function.  An
    exception leaves the view before its response: a [BadRequestKeyError]
    is answered with status 400, anything else with status 500, and what
    the view had not committed is dropped. *)
Record Outcome := mkOutcome
  { response : Response;
    flashed : list string;
    session_after : Session;
    store_after : Store }.

Definition serve (view : M Response) (st : Store) (s : Session) : Outcome :=
  match view (mkWorld st s []) with
  | inr (r, w) => mkOutcome r (flashes w) (session w) (db w)
  | inl (BadRequestKeyError _) => mkOutcome (abort 400) [] s st
  | inl IntegrityError => mkOutcome (abort 500) [] s st
  | inl ValueError => mkOutcome (abort 500) [] s st
  end.

(** The URL map of lines 48, 64, 75, 102 and 126: a rule answers the
    methods it lists ([GET] alone when it lists none) and the others get
    status 405 without the view being called. *)
Inductive Rule := r_login | r_dashboard | r_patients | r_add_doctor | r_logout.

Definition allows (rule : Rule) (m : Method) : bool :=
  match rule, m with
  | _, GET => true
  | (r_login | r_patients | r_add_doctor), POST => true
  | (r_dashboard | r_logout), POST => false
  end.

Definition view_of (rule : Rule) (env : Env) : Request -> M Response :=
  match rule with
  | r_login => login
  | r_dashboard => dashboard
  | r_patients => patients env
  | r_add_doctor => add_doctor env
  | r_logout => logout
  end.

Definition dispatch (rule : Rule) (env : Env) (request : Request)
    (st : Store) (s : Session) : Outcome :=
  if allows rule (method request)
  then serve (view_of rule env request) st s
  else mkOutcome (abort 405) [] s st.

(** The bootstrap block run on a store: the store it leaves, which is
    the store it found when the block raises before its commit. *)
Definition bootstrap (env : Env) (st : Store) : Store :=
  match initialize env (mkWorld st None []) with
  | inr (_, w) => db w
  | inl _ => st
  end.

(** The stores the program can bring about from an empty database: by
    its bootstrap block and by requests. *)
Inductive reachable : Store -> Prop :=
| reach_empty : reachable empty_store
| reach_bootstrap env st :
    reachable st -> reachable (bootstrap env st)
| reach_request rule env request s st :
    reachable st ->
    reachable (store_after (dispatch rule env request st s)).

End Routes.

(** ** The vocabulary of the properties *)

(** [t] occurs in [s] as a substring. *)
Definition Substring (t s : string) : Prop := exists a b, s = a ++ t ++ b.

(** The same as a test: [t] is a prefix of [s] or occurs further on. *)
Fixpoint substringb (t s : string) : bool :=
  String.prefix t s
  || match s with
     | EmptyString => false
     | String _ s' => substringb t s'
     end.

(** [s] with its ASCII capitals as small letters. *)
Fixpoint lower (s : string) : string :=
  match s with
  | EmptyString => EmptyString
  | String b s' => String (fold_case b) (lower s')
  end.

(** [t] occurs in [s] when ASCII letters are compared without regard to
    case. *)
Definition Substring_nocase (t s : string) : Prop :=
  Substring (lower t) (lower s).






(** The number of accounts named [u]. *)
Definition accounts_named (u : string) (st : Store) : nat :=
  List.length
    (filter (fun d => String.eqb (Doctor.username d) u) (tbl_doctor st)).

(** The number of doctors a patient row refers to. *)
Definition owners (st : Store) (p : Patient.t) : nat :=
  List.length
    (filter (fun d => column_eq (Patient.doctor_id p) (Doctor.id d))
       (tbl_doctor st)).

(** Referential integrity of the patients table: doctor ids are distinct
    and every patient row names the id of a doctor row. *)
Definition referential (st : Store) : Prop :=
  NoDup (map Doctor.id (tbl_doctor st))
  /\ Forall (fun p => exists d, In d (tbl_doctor st)
                               /\ Patient.doctor_id p = Some (Doctor.id d))
       (tbl_patient st).

(** The uniqueness constraints of the schema: the two primary keys, and
    the columns declared [unique=True] (lines 28 and 37). *)
Definition unique_keys (st : Store) : Prop :=
  NoDup (map Doctor.id (tbl_doctor st))
  /\ NoDup (map Doctor.username (tbl_doctor st))
  /\ NoDup (map Patient.id (tbl_patient st))
  /\ NoDup (map Patient.patient_id (tbl_patient st)).

(** The doctor row that [add_doctor] inserts for a form, once bcrypt has
    given the hash, and the patient row that [patients] inserts. *)
Definition new_Doctor (env : Env) (st : Store)
    (username full_name specialty hashed : string) : Doctor.t :=
  Doctor.mk (next_id (map Doctor.id (tbl_doctor st))) username hashed
    (Some full_name) (Some specialty) (utcnow env).

Definition new_Patient (env : Env) (st : Store) (name notes : string)
    (doctor : Doctor.t) : Patient.t :=
  Patient.mk (next_id (map Patient.id (tbl_patient st))) (uuid4 env)
    name notes (utcnow env) (Some (Doctor.id doctor)).

(** ** Sample data *)

Module Sample.

(** A stand-in for bcrypt: the hash is the salt followed by the password.
    It refuses a password of more than 72 bytes, as bcrypt 5 does, and does
    not hash an empty one, as Flask-Bcrypt does not. *)
Definition toy_bcrypt : Bcrypt :=
  mkBcrypt
    (fun salt password =>
       if (String.length password =? 0)%nat
          || (72 <? String.length password)%nat
       then None
       else Some (salt ++ password))
    (fun pw_hash password =>
       if (72 <? String.length password)%nat then None
       else
         Some
           (String.eqb
              (Config.drop (String.length pw_hash - String.length password)
                 pw_hash)
              password)).

Fixpoint replicate (n : nat) (c : ascii) : string :=
  match n with
  | O => EmptyString
  | S n' => String c (replicate n' c)
  end.

(** A password of 73 bytes. *)
Definition long_password : string := replicate 73 "a".

Definition env0 : Env := mkEnv 100 "0b0e7a2c-1111-4a6e-9f3d-000000000001" "s0".
Definition env1 : Env := mkEnv 200 "0b0e7a2c-1111-4a6e-9f3d-000000000002" "s1".
Definition env2 : Env := mkEnv 300 "0b0e7a2c-1111-4a6e-9f3d-000000000003" "s2".

Definition admin : Doctor.t :=
  Doctor.mk 1 "admin" "s0admin123" (Some "Admin") None 100.

Definition smith : Doctor.t :=
  Doctor.mk 2 "dr.smith" "s1secret" (Some "John Smith") (Some "ENT") 200.

Definition ahmed : Patient.t :=
  Patient.mk 1 "abc-1" "Ahmed" "" 210 (Some 2).

Definition sara : Patient.t :=
  Patient.mk 2 "xyz-2" "Sara" "" 220 (Some 2).

Definition clinic : Store := mkStore [admin; smith] [ahmed; sara].

Definition as_admin : Session := Some 1.
Definition as_smith : Session := Some 2.

Definition search_for (term : string) : Request :=
  mkRequest GET [("search", term)] [].

Definition new_doctor_form (u : string) : MultiDict :=
  [("username", u); ("full_name", "Jane Roe"); ("specialty", "GP");
   ("password", "pw")].

Definition add_jones : Request :=
  mkRequest POST [] (new_doctor_form "dr.jones").

Definition jones : Doctor.t :=
  Doctor.mk 3 "dr.jones" "s2pw" (Some "Jane Roe") (Some "GP") 300.

Definition login_as (u password : string) : Request :=
  mkRequest POST [] [("username", u); ("password", password)].

Definition empty_post : Request := mkRequest POST [] [].

Definition nameless : Request :=
  mkRequest POST [] [("name", ""); ("notes", "follow-up")].

Definition nobody : Patient.t :=
  Patient.mk 3 "0b0e7a2c-1111-4a6e-9f3d-000000000003" "" "follow-up" 300
    (Some 2).

(** The clinic as the program builds it from an empty database: the
    bootstrap block, then the admin adding a doctor, then that doctor
    adding a patient. *)
Definition add_smith : Request :=
  mkRequest POST []
    [("username", "dr.smith"); ("full_name", "John Smith");
     ("specialty", "ENT"); ("password", "secret")].

Definition add_ahmed : Request :=
  mkRequest POST [] [("name", "Ahmed"); ("notes", "")].

Definition started : Store := @bootstrap toy_bcrypt env0 empty_store.

Definition staffed : Store :=
  store_after
    (@dispatch toy_bcrypt r_add_doctor env1 add_smith started as_admin).

Definition visited : Store :=
  store_after (@dispatch toy_bcrypt r_patients env2 add_ahmed staffed as_smith).

Definition first_patient : Patient.t :=
  Patient.mk 1 "0b0e7a2c-1111-4a6e-9f3d-000000000003" "Ahmed" "" 300 (Some 2).

Definition plain_get : Request := mkRequest GET [] [].

Definition add_omar : Request :=
  mkRequest POST [] [("name", "Omar"); ("notes", "new")].

Definition omar : Patient.t :=
  Patient.mk 3 "0b0e7a2c-1111-4a6e-9f3d-000000000003" "Omar" "new" 300
    (Some 2).

(** A draw of [uuid.uuid4] that repeats a public id in use. *)
Definition env_clash : Env := mkEnv 400 "abc-1" "s3".

Definition no_password : MultiDict := [("username", "dr.smith")].


End Sample.

(** * Properties *)

(** ** The database URL *)

Lemma prefix_drop (p s : string) :
  String.prefix p s = true -> s = p ++ Config.drop (String.length p) s.
Proof.
  revert s; induction p as [|c p IH]; intros s H; simpl.
  - reflexivity.
  - destruct s as [|d s]; simpl in H; [discriminate|].
    destruct (Ascii.ascii_dec c d) as [->|]; [|discriminate].
    simpl. f_equal. now apply IH.
Qed.

Lemma prefix_app (p rest : string) : String.prefix p (p ++ rest) = true.
Proof.
  induction p as [|c p IH]; simpl.
  - now destruct rest.
  - destruct (Ascii.ascii_dec c c); [exact IH | congruence].
Qed.

Lemma replace1_prefix (old new s : string) :
  String.prefix old s = true ->
  Config.replace1 old new s = new ++ Config.drop (String.length old) s.
Proof.
  intros H. destruct s; cbn [Config.replace1]; now rewrite H.
Qed.

(** C9.  A [DATABASE_URL] that starts with [postgres://] is used with that
    leading prefix, and nothing else, rewritten to [postgresql://]; any other
    value is used as it is. *)
Theorem db_url_legacy_prefix (v rest : string) :
  Config.db_url (Some ("postgres://" ++ rest)) = "postgresql://" ++ rest
  /\ (if Config.startswith v "postgres://"
      then v = "postgres://" ++ Config.drop 11 v
           /\ Config.db_url (Some v) = "postgresql://" ++ Config.drop 11 v
      else Config.db_url (Some v) = v).
Proof.
  split.
  { pose proof (prefix_app "postgres://" rest) as E.
    unfold Config.db_url, Config.startswith.
    now rewrite E, (replace1_prefix _ "postgresql://" _ E). }
  unfold Config.db_url.
  destruct (Config.startswith v "postgres://") eqn:E; [|reflexivity].
  unfold Config.startswith in E. split.
  - exact (prefix_drop _ _ E).
  - now rewrite (replace1_prefix _ "postgresql://" _ E).
Qed.

(** ** Gates and request errors *)

Section Gates.

Context {bcrypt : Bcrypt}.

(** C3.  A request whose session resolves to no doctor is answered, by
    the dashboard, the patients and the add-doctor views alike and whatever
    its method, with a redirect to the login page; nothing is flashed and
    the session and the store are as before. *)
Theorem anonymous_is_redirected
    (env : Env) (request : Request) (st : Store) (s : Session) :
  load_user st s = None ->
  serve (dashboard request) st s = mkOutcome (redirect ep_login) [] s st
  /\ serve (patients env request) st s = mkOutcome (redirect ep_login) [] s st
  /\ serve (add_doctor env request) st s
     = mkOutcome (redirect ep_login) [] s st.
Proof.
  intros H.
  unfold serve, dashboard, patients, add_doctor, bind, current_user, ret;
    simpl; rewrite H; auto.
Qed.

(** C7.  A doctor who is logged in under a username other than [admin]
    gets, from the add-doctor view and whatever the method, a redirect to
    the login page: no page is rendered and the store is as before. *)
Theorem non_admin_is_redirected
    (env : Env) (request : Request) (st : Store) (s : Session)
    (user : Doctor.t) :
  load_user st s = Some user ->
  Doctor.username user <> "admin" ->
  serve (add_doctor env request) st s = mkOutcome (redirect ep_login) [] s st.
Proof.
  intros H Hn.
  apply String.eqb_neq in Hn.
  unfold serve, add_doctor, bind, current_user, ret; simpl.
  now rewrite H, Hn.
Qed.

(** C6, as the code has it.  For an anonymous client, a login POST under
    a username that no doctor has and a login POST under a username that a
    doctor has, with a password that bcrypt checks and finds not to verify,
    have one and the same outcome: the same single message flashed, a
    redirect to the login page, the session and the store untouched. *)
Theorem login_failures_alike
    (unknown known : Request) (st : Store) (s : Session)
    (u u' password : string) (user : Doctor.t) :
  load_user st s = None ->
  method unknown = POST ->
  get (form unknown) "username" = Some u ->
  Doctor_by_username u st = None ->
  method known = POST ->
  get (form known) "username" = Some u' ->
  Doctor_by_username u' st = Some user ->
  get (form known) "password" = Some password ->
  check_password_hash (Doctor.password_hash user) password = Some false ->
  serve (login unknown) st s = serve (login known) st s
  /\ serve (login known) st s
     = mkOutcome (redirect ep_login) ["بيانات الدخول غير صحيحة"] s st.
Proof.
  intros Ha Hm Hu Hq Hm' Hu' Hq' Hp Hc.
  unfold serve, login, bind, current_user, getitem, query, flash, bcrypt_call,
    ret; simpl.
  rewrite Ha, Hm, Hm', Hu, Hu'; simpl.
  rewrite Hq, Hq', Hp; simpl.
  now rewrite Hc.
Qed.

(** C10.  For a doctor who is logged in, a POST to the patients view whose
    form lacks [name] or [notes] raises the key error before anything is
    added: the answer is status 400 and the store is as before.  For the
    admin, a POST to the add-doctor view whose form lacks [username],
    [full_name], [specialty] or [password] does the same. *)
Theorem missing_field_is_bad_request
    (env : Env) (st : Store)
    (request : Request) (s : Session) (user : Doctor.t)
    (request' : Request) (s' : Session) (admin : Doctor.t) :
  load_user st s = Some user ->
  method request = POST ->
  get (form request) "name" = None \/ get (form request) "notes" = None ->
  load_user st s' = Some admin ->
  Doctor.username admin = "admin" ->
  method request' = POST ->
  get (form request') "username" = None
  \/ get (form request') "full_name" = None
  \/ get (form request') "specialty" = None
  \/ get (form request') "password" = None ->
  ((exists key, patients env request (mkWorld st s [])
                = inl (BadRequestKeyError key))
   /\ serve (patients env request) st s = mkOutcome (abort 400) [] s st)
  /\ ((exists key, add_doctor env request' (mkWorld st s' [])
                   = inl (BadRequestKeyError key))
      /\ serve (add_doctor env request') st s'
         = mkOutcome (abort 400) [] s' st).
Proof.
  intros Hu Hm Hmiss Hu' Hadm Hm' Hmiss'. split.
  - unfold serve, patients, bind, current_user, getitem, query, ret, raise;
      simpl; rewrite Hu, Hm; simpl.
    destruct (truthy (get (args request) "search")); simpl;
      destruct (get (form request) "name"); simpl;
      destruct Hmiss as [E|E]; try discriminate; try rewrite E; simpl; eauto.
  - unfold serve, add_doctor, bind, current_user, getitem, query, ret, raise;
      simpl; rewrite Hu', Hadm, Hm'; simpl.
    destruct (get (form request') "username"); simpl; [|eauto].
    destruct (get (form request') "full_name"); simpl; [|eauto].
    destruct (get (form request') "specialty"); simpl; [|eauto].
    destruct (get (form request') "password"); simpl; [|eauto].
    destruct Hmiss' as [E|[E|[E|E]]]; discriminate.
Qed.

End Gates.

(** ** Accounts *)

Lemma find_app {A} (f : A -> bool) (l l' : list A) :
  find f (l ++ l') = match find f l with
                     | Some x => Some x
                     | None => find f l'
                     end.
Proof.
  induction l as [|x l IH]; simpl; [reflexivity|].
  now destruct (f x).
Qed.

Lemma find_none_existsb {A} (f : A -> bool) (l : list A) :
  find f l = None -> existsb f l = false.
Proof.
  induction l as [|x l IH]; simpl; [reflexivity|].
  destruct (f x); [discriminate | exact IH].
Qed.

Lemma find_none_filter {A} (f : A -> bool) (l : list A) :
  find f l = None -> filter f l = [].
Proof.
  induction l as [|x l IH]; simpl; [reflexivity|].
  destruct (f x); [discriminate | exact IH].
Qed.

Lemma find_some_true {A} (f : A -> bool) (l : list A) (x : A) :
  find f l = Some x -> f x = true /\ In x l.
Proof.
  intros H. apply find_some in H. tauto.
Qed.

(** Under a uniqueness constraint on a column at most one row has a given
    value in it. *)
Lemma unique_filter {A B} (col : A -> B) (v : B) (test : A -> bool)
    (l : list A) :
  (forall x, test x = true -> col x = v) ->
  NoDup (map col l) ->
  (List.length (filter test l) <= 1)%nat.
Proof.
  intros T. induction l as [|x l IH]; simpl; intros H; [lia|].
  inversion H as [|? ? Hx Hl]; subst.
  destruct (test x) eqn:E; [|auto].
  simpl. assert (filter test l = []) as ->; [|simpl; lia].
  apply find_none_filter.
  destruct (find test l) as [y|] eqn:F; [|reflexivity].
  apply find_some_true in F as [Fy Fin].
  exfalso. apply Hx. rewrite (T _ E), <- (T _ Fy). now apply in_map.
Qed.

Lemma find_some_filter {A} (f : A -> bool) (l : list A) (x : A) :
  find f l = Some x -> (1 <= List.length (filter f l))%nat.
Proof.
  induction l as [|y l IH]; simpl; [discriminate|].
  destruct (f y); simpl; [lia | exact IH].
Qed.

Section Accounts.

Context {bcrypt : Bcrypt}.

Lemma load_user_after_insert (st : Store) (s : Session) (user d : Doctor.t)
    (ps : list Patient.t) :
  load_user st s = Some user ->
  load_user (mkStore (tbl_doctor st ++ [d]) ps) s = Some user.
Proof.
  destruct s as [i|]; simpl; [|discriminate].
  unfold Doctor_get; simpl. intros H. now rewrite find_app, H.
Qed.


Lemma bootstrap_unfold (env : Env) (st : Store) :
  bootstrap env st
  = match Doctor_by_username "admin" st with
    | Some _ => st
    | None =>
        match generate_password_hash (gensalt env) "admin123" with
        | Some password =>
            mkStore
              (tbl_doctor st
               ++ [Doctor.mk (next_id (map Doctor.id (tbl_doctor st))) "admin"
                     password (Some "Admin") None (utcnow env)])
              (tbl_patient st)
        | None => st
        end
    end.
Proof.
  unfold bootstrap, initialize, bind, query, add_Doctor, bcrypt_call, raise,
    ret; simpl.
  destruct (Doctor_by_username "admin" st) eqn:Q; simpl.
  - now destruct st.
  - destruct (generate_password_hash (gensalt env) "admin123"); simpl;
      [|reflexivity].
    unfold Doctor_by_username in Q.
    now rewrite (find_none_existsb _ _ Q).
Qed.

(** C5.  On a store whose usernames are unique, as the table's constraint
    has them, and with a bcrypt that hashes the default password, the
    bootstrap block run twice leaves what it leaves when run once, and
    exactly one doctor row named [admin]. *)
Theorem bootstrap_twice_one_admin (env env' : Env) (st : Store)
    (password : string) :
  NoDup (map Doctor.username (tbl_doctor st)) ->
  generate_password_hash (gensalt env) "admin123" = Some password ->
  bootstrap env' (bootstrap env st) = bootstrap env st
  /\ accounts_named "admin" (bootstrap env' (bootstrap env st)) = 1%nat.
Proof.
  intros U G.
  assert (Hfix : bootstrap env' (bootstrap env st) = bootstrap env st).
  { rewrite (bootstrap_unfold env' (bootstrap env st)).
    rewrite (bootstrap_unfold env st), G.
    destruct (Doctor_by_username "admin" st) eqn:Q.
    - now rewrite Q.
    - unfold Doctor_by_username in *; simpl.
      now rewrite find_app, Q. }
  split; [exact Hfix|]. rewrite Hfix, bootstrap_unfold, G.
  unfold accounts_named.
  destruct (Doctor_by_username "admin" st) eqn:Q;
    unfold Doctor_by_username in Q.
  - pose proof (unique_filter Doctor.username "admin" _ _
                  (fun d => proj1 (String.eqb_eq _ _)) U).
    pose proof (find_some_filter _ _ _ Q). lia.
  - simpl. rewrite filter_app, (find_none_filter _ _ Q). reflexivity.
Qed.

End Accounts.

(** ** Searching and listing patients *)

Lemma prefix_iff (t s : string) :
  String.prefix t s = true <-> exists b, s = t ++ b.
Proof.
  split.
  - intros H. eexists. exact (prefix_drop _ _ H).
  - intros [b ->]. apply prefix_app.
Qed.

Lemma substringb_iff (t s : string) :
  substringb t s = true <-> Substring t s.
Proof.
  unfold Substring. induction s as [|c s IH].
  - cbn [substringb]. rewrite orb_false_r, prefix_iff. split.
    + intros [b H]. now exists "", b.
    + intros [a [b H]]. destruct a; [now exists b | discriminate].
  - cbn [substringb]. rewrite orb_true_iff, IH, prefix_iff. split.
    + intros [[b H]|[a [b H]]].
      * now exists "", b.
      * exists (String c a), b. simpl. now rewrite H.
    + intros [a [b H]]. destruct a as [|d a]; simpl in H.
      * left. now exists b.
      * right. exists a, b. congruence.
Qed.










Lemma substringb_nocase_iff (t s : string) :
  substringb (lower t) (lower s) = true <-> Substring_nocase t s.
Proof. apply substringb_iff. Qed.


Lemma insert_desc_perm (p : Patient.t) (l : list Patient.t) :
  Permutation (insert_desc p l) (p :: l).
Proof.
  induction l as [|q l IH]; simpl; [reflexivity|].
  destruct (Patient.created_at q <=? Patient.created_at p); [reflexivity|].
  rewrite IH. apply perm_swap.
Qed.

Lemma order_by_perm (l : list Patient.t) :
  Permutation (order_by_created_at_desc l) l.
Proof.
  induction l as [|p l IH]; simpl; [reflexivity|].
  now rewrite insert_desc_perm, IH.
Qed.



Lemma column_eq_iff (column : option Z) (v : Z) :
  column_eq column v = true <-> column = Some v.
Proof.
  destruct column as [w|]; simpl; [|split; discriminate].
  rewrite Z.eqb_eq. split; congruence.
Qed.



(** C2, as the code has it.  The patients view does not look at what the
    name is.  For a doctor who is logged in, a POST whose [name] is the empty
    string, with [notes] present and a generated public id that no row has,
    adds one patient row with the empty name, owned by that doctor, flashes
    the success message with the public id and redirects to the patients
    view. *)
Theorem empty_name_is_accepted
    (env : Env) (request : Request) (st : Store) (s : Session)
    (user : Doctor.t) (notes : string) :
  load_user st s = Some user ->
  method request = POST ->
  get (form request) "name" = Some "" ->
  get (form request) "notes" = Some notes ->
  find (fun p => String.eqb (Patient.patient_id p) (uuid4 env)) (tbl_patient st)
  = None ->
  serve (patients env request) st s
  = mkOutcome (redirect ep_patients)
      ["تم إضافة المريض بنجاح. رقم المريض: " ++ uuid4 env] s
      (mkStore (tbl_doctor st)
         (tbl_patient st
          ++ [Patient.mk (next_id (map Patient.id (tbl_patient st)))
                (uuid4 env) "" notes (utcnow env) (Some (Doctor.id user))])).
Proof.
  intros Hu Hm Hn Ho Hfresh.
  unfold serve, patients, bind, current_user, getitem, query, add_Patient,
    flash, ret; simpl.
  rewrite Hu, Hm.
  destruct (truthy (get (args request) "search")); simpl;
    rewrite Hn, Ho; simpl; now rewrite (find_none_existsb _ _ Hfresh).
Qed.

(** ** Ownership of patient rows *)

Lemma next_id_fresh (ids : list Z) : ~ In (next_id ids) ids.
Proof.
  assert (B : forall i, In i ids -> i <= fold_right Z.max 0 ids).
  { induction ids as [|j ids IH]; simpl; [tauto|].
    intros i [->|H]; [lia|]. specialize (IH _ H). lia. }
  intros H. apply B in H. unfold next_id in H. lia.
Qed.

Lemma load_user_in (st : Store) (s : Session) (user : Doctor.t) :
  load_user st s = Some user -> In user (tbl_doctor st).
Proof.
  destruct s as [i|]; simpl; [|discriminate].
  intros H. now apply find_some_true in H.
Qed.

Lemma referential_add_doctor (st : Store) (d : Doctor.t) :
  Doctor.id d = next_id (map Doctor.id (tbl_doctor st)) ->
  referential st ->
  referential (mkStore (tbl_doctor st ++ [d]) (tbl_patient st)).
Proof.
  intros Hid [N F]. split; simpl.
  - rewrite map_app; simpl.
    apply NoDup_app; [exact N | repeat constructor; simpl; tauto |].
    intros i Hi [<-|[]]. rewrite Hid in Hi. now apply next_id_fresh in Hi.
  - eapply Forall_impl; [|exact F].
    intros p [e [He Hp]]. exists e. split; [apply in_or_app; now left | exact Hp].
Qed.

Lemma referential_add_patient (st : Store) (p : Patient.t) (user : Doctor.t) :
  In user (tbl_doctor st) ->
  Patient.doctor_id p = Some (Doctor.id user) ->
  referential st ->
  referential (mkStore (tbl_doctor st) (tbl_patient st ++ [p])).
Proof.
  intros Hin Hp [N F]. split; simpl; [exact N|].
  apply Forall_app. split; [exact F|].
  constructor; [|constructor]. now exists user.
Qed.

Section Ownership.

Context {bcrypt : Bcrypt}.

(** What one request can do to the store: nothing, or add one doctor row
    under a new key, or add one patient row that names the current user. *)
Lemma dispatch_effect (rule : Rule) (env : Env) (request : Request)
    (st : Store) (s : Session) :
  let st' := store_after (dispatch rule env request st s) in
  st' = st
  \/ (exists d,
         Doctor.id d = next_id (map Doctor.id (tbl_doctor st))
         /\ st' = mkStore (tbl_doctor st ++ [d]) (tbl_patient st))
  \/ (exists p user,
         load_user st s = Some user
         /\ Patient.doctor_id p = Some (Doctor.id user)
         /\ st' = mkStore (tbl_doctor st) (tbl_patient st ++ [p])).
Proof.
  unfold dispatch. destruct (allows rule (method request)); [|now left].
  destruct rule;
    unfold view_of, serve, login, dashboard, patients, add_doctor, logout,
      bind, current_user, getitem, query, flash, login_user, logout_user,
      add_Doctor, add_Patient, bcrypt_call, raise, ret;
    simpl;
    repeat
      match goal with
      | |- context [match ?x with _ => _ end] =>
          lazymatch x with
          | load_user _ _ => destruct x eqn:?
          | Doctor_by_username _ _ => destruct x eqn:?
          | get _ _ => destruct x eqn:?
          | is_POST _ => destruct x eqn:?
          | truthy _ => destruct x eqn:?
          | negb _ => destruct x eqn:?
          | String.eqb _ _ => destruct x eqn:?
          | existsb _ _ => destruct x eqn:?
          | check_password_hash _ _ => destruct x eqn:?
          | generate_password_hash _ _ => destruct x eqn:?
          end; simpl
      end;
    try (now left);
    try (right; left; eexists; (split; [|reflexivity]); reflexivity);
    right; right; do 2 eexists;
    (split; [reflexivity|]); (split; [|reflexivity]); reflexivity.
Qed.

Lemma referential_dispatch (rule : Rule) (env : Env) (request : Request)
    (st : Store) (s : Session) :
  referential st ->
  referential (store_after (dispatch rule env request st s)).
Proof.
  intros R.
  destruct (dispatch_effect rule env request st s)
    as [E|[[d [Hd E]]|[p [user [Hu [Hp E]]]]]]; rewrite E.
  - exact R.
  - now apply referential_add_doctor.
  - apply (referential_add_patient st p user); auto.
    now apply load_user_in in Hu.
Qed.

Lemma referential_bootstrap (env : Env) (st : Store) :
  referential st -> referential (bootstrap env st).
Proof.
  intros R. rewrite bootstrap_unfold.
  destruct (Doctor_by_username "admin" st); [exact R|].
  destruct (generate_password_hash (gensalt env) "admin123"); [|exact R].
  now apply referential_add_doctor.
Qed.

Lemma reachable_referential (st : Store) : reachable st -> referential st.
Proof.
  induction 1.
  - split; simpl; constructor.
  - now apply referential_bootstrap.
  - now apply referential_dispatch.
Qed.

(** C8.  In every store the program can bring about from an empty
    database, by its bootstrap block and by requests of any kind, each
    patient row has a [doctor_id] that is not NULL and is the id of
    exactly one doctor row. *)
Theorem every_patient_has_one_doctor (st : Store) (p : Patient.t) :
  reachable st ->
  In p (tbl_patient st) ->
  exists i, Patient.doctor_id p = Some i /\ owners st p = 1%nat.
Proof.
  intros H Hp. apply reachable_referential in H as [N F].
  rewrite Forall_forall in F. destruct (F _ Hp) as [d [Hd E]].
  exists (Doctor.id d). split; [exact E|].
  unfold owners.
  assert (L : (1 <= List.length
                 (filter (fun e => column_eq (Patient.doctor_id p) (Doctor.id e))
                    (tbl_doctor st)))%nat).
  { assert (I : In d (filter (fun e => column_eq (Patient.doctor_id p)
                                         (Doctor.id e)) (tbl_doctor st))).
    { apply filter_In. split; [exact Hd|]. now apply column_eq_iff. }
    destruct (filter _ (tbl_doctor st)); [destruct I | simpl; lia]. }
  assert (U : (List.length
                 (filter (fun e => column_eq (Patient.doctor_id p) (Doctor.id e))
                    (tbl_doctor st)) <= 1)%nat).
  { apply (unique_filter Doctor.id (Doctor.id d)); [|exact N].
    intros e He. apply column_eq_iff in He. congruence. }
  lia.
Qed.

End Ownership.

(** ** The properties on the sample clinic *)

Example staffed_clinic :
  Sample.staffed = mkStore [Sample.admin; Sample.smith] [].
Proof. reflexivity. Qed.

Example visited_clinic :
  Sample.visited
  = mkStore [Sample.admin; Sample.smith] [Sample.first_patient].
Proof. reflexivity. Qed.

Example search_by_name :
  response (serve (patients Sample.env0 (Sample.search_for "ar"))
              Sample.clinic Sample.as_smith)
  = render_template (patients_html [Sample.sara]).
Proof. reflexivity. Qed.

Example search_by_public_id :
  response (serve (patients Sample.env0 (Sample.search_for "ab"))
              Sample.clinic Sample.as_smith)
  = render_template (patients_html [Sample.ahmed]).
Proof. reflexivity. Qed.

Example search_ignores_ascii_case :
  response (serve (patients Sample.env0 (Sample.search_for "AH"))
              Sample.clinic Sample.as_smith)
  = render_template (patients_html [Sample.ahmed]).
Proof. reflexivity. Qed.

Example admin_sees_no_patient :
  response (serve (patients Sample.env0 (Sample.search_for "a"))
              Sample.clinic Sample.as_admin)
  = render_template (patients_html []).
Proof. reflexivity. Qed.



(** C6 as stated does not hold: with a password that bcrypt refuses to
    check, the unknown username gets the flashed failure and the known one
    status 500. *)
Lemma unchecked_password_counterexample :
  Doctor_by_username "dr.who" Sample.clinic = None
  /\ Doctor_by_username "dr.smith" Sample.clinic = Some Sample.smith
  /\ @check_password_hash Sample.toy_bcrypt
       (Doctor.password_hash Sample.smith) Sample.long_password = None
  /\ serve (@login Sample.toy_bcrypt
              (Sample.login_as "dr.who" Sample.long_password))
       Sample.clinic None
     = mkOutcome (redirect ep_login) ["بيانات الدخول غير صحيحة"] None
         Sample.clinic
  /\ serve (@login Sample.toy_bcrypt
              (Sample.login_as "dr.smith" Sample.long_password))
       Sample.clinic None
     = mkOutcome (abort 500) [] None Sample.clinic.
Proof. repeat split; reflexivity. Qed.

(** C2 as stated does not hold: an empty name is stored. *)
Lemma empty_name_counterexample :
  serve (patients Sample.env2 Sample.nameless) Sample.clinic Sample.as_smith
  = mkOutcome (redirect ep_patients)
      ["تم إضافة المريض بنجاح. رقم المريض: 0b0e7a2c-1111-4a6e-9f3d-000000000003"]
      Sample.as_smith
      (mkStore [Sample.admin; Sample.smith]
         [Sample.ahmed; Sample.sara; Sample.nobody])
  /\ Patient.name Sample.nobody = "".
Proof. split; reflexivity. Qed.


Lemma empty_name_is_accepted_witness :
  load_user Sample.clinic Sample.as_smith = Some Sample.smith
  /\ method Sample.nameless = POST
  /\ get (form Sample.nameless) "name" = Some ""
  /\ get (form Sample.nameless) "notes" = Some "follow-up"
  /\ find (fun p => String.eqb (Patient.patient_id p) (uuid4 Sample.env2))
       (tbl_patient Sample.clinic) = None
  /\ serve (patients Sample.env2 Sample.nameless) Sample.clinic Sample.as_smith
     = mkOutcome (redirect ep_patients)
         ["تم إضافة المريض بنجاح. رقم المريض: " ++ uuid4 Sample.env2]
         Sample.as_smith
         (mkStore (tbl_doctor Sample.clinic)
            (tbl_patient Sample.clinic
             ++ [Patient.mk (next_id (map Patient.id (tbl_patient Sample.clinic)))
                   (uuid4 Sample.env2) "" "follow-up" (utcnow Sample.env2)
                   (Some (Doctor.id Sample.smith))])).
Proof.
  do 5 (split; [reflexivity|]).
  apply (empty_name_is_accepted Sample.env2 Sample.nameless Sample.clinic
           Sample.as_smith Sample.smith "follow-up"); reflexivity.
Defined.

Lemma anonymous_is_redirected_witness :
  load_user Sample.clinic (Some 7) = None
  /\ serve (dashboard Sample.empty_post) Sample.clinic (Some 7)
     = mkOutcome (redirect ep_login) [] (Some 7) Sample.clinic
  /\ serve (patients Sample.env2 Sample.empty_post) Sample.clinic (Some 7)
     = mkOutcome (redirect ep_login) [] (Some 7) Sample.clinic
  /\ serve (@add_doctor Sample.toy_bcrypt Sample.env2 Sample.empty_post)
       Sample.clinic (Some 7)
     = mkOutcome (redirect ep_login) [] (Some 7) Sample.clinic.
Proof.
  split; [reflexivity|].
  apply (@anonymous_is_redirected Sample.toy_bcrypt Sample.env2
           Sample.empty_post Sample.clinic (Some 7)); reflexivity.
Defined.

Lemma non_admin_is_redirected_witness :
  load_user Sample.clinic Sample.as_smith = Some Sample.smith
  /\ Doctor.username Sample.smith <> "admin"
  /\ serve (@add_doctor Sample.toy_bcrypt Sample.env2 Sample.add_jones)
       Sample.clinic Sample.as_smith
     = mkOutcome (redirect ep_login) [] Sample.as_smith Sample.clinic.
Proof.
  split; [reflexivity|]. split; [discriminate|].
  apply (@non_admin_is_redirected Sample.toy_bcrypt Sample.env2
           Sample.add_jones Sample.clinic Sample.as_smith Sample.smith);
    [reflexivity | discriminate].
Defined.

Lemma login_failures_alike_witness :
  load_user Sample.clinic None = None
  /\ method (Sample.login_as "dr.who" "secret") = POST
  /\ get (form (Sample.login_as "dr.who" "secret")) "username" = Some "dr.who"
  /\ Doctor_by_username "dr.who" Sample.clinic = None
  /\ method (Sample.login_as "dr.smith" "guess") = POST
  /\ get (form (Sample.login_as "dr.smith" "guess")) "username"
     = Some "dr.smith"
  /\ Doctor_by_username "dr.smith" Sample.clinic = Some Sample.smith
  /\ get (form (Sample.login_as "dr.smith" "guess")) "password" = Some "guess"
  /\ @check_password_hash Sample.toy_bcrypt
       (Doctor.password_hash Sample.smith) "guess" = Some false
  /\ serve (@login Sample.toy_bcrypt (Sample.login_as "dr.who" "secret"))
       Sample.clinic None
     = serve (@login Sample.toy_bcrypt (Sample.login_as "dr.smith" "guess"))
         Sample.clinic None
  /\ serve (@login Sample.toy_bcrypt (Sample.login_as "dr.smith" "guess"))
       Sample.clinic None
     = mkOutcome (redirect ep_login) ["بيانات الدخول غير صحيحة"] None
         Sample.clinic.
Proof.
  do 9 (split; [reflexivity|]).
  apply (@login_failures_alike Sample.toy_bcrypt
           (Sample.login_as "dr.who" "secret")
           (Sample.login_as "dr.smith" "guess") Sample.clinic None
           "dr.who" "dr.smith" "guess" Sample.smith); reflexivity.
Defined.

Lemma missing_field_is_bad_request_witness :
  load_user Sample.clinic Sample.as_smith = Some Sample.smith
  /\ method Sample.empty_post = POST
  /\ (get (form Sample.empty_post) "name" = None
      \/ get (form Sample.empty_post) "notes" = None)
  /\ load_user Sample.clinic Sample.as_admin = Some Sample.admin
  /\ Doctor.username Sample.admin = "admin"
  /\ (get (form Sample.empty_post) "username" = None
      \/ get (form Sample.empty_post) "full_name" = None
      \/ get (form Sample.empty_post) "specialty" = None
      \/ get (form Sample.empty_post) "password" = None)
  /\ ((exists key, patients Sample.env2 Sample.empty_post
                     (mkWorld Sample.clinic Sample.as_smith [])
                   = inl (BadRequestKeyError key))
      /\ serve (patients Sample.env2 Sample.empty_post) Sample.clinic
           Sample.as_smith
         = mkOutcome (abort 400) [] Sample.as_smith Sample.clinic)
  /\ ((exists key, @add_doctor Sample.toy_bcrypt Sample.env2 Sample.empty_post
                     (mkWorld Sample.clinic Sample.as_admin [])
                   = inl (BadRequestKeyError key))
      /\ serve (@add_doctor Sample.toy_bcrypt Sample.env2 Sample.empty_post)
           Sample.clinic Sample.as_admin
         = mkOutcome (abort 400) [] Sample.as_admin Sample.clinic).
Proof.
  split; [reflexivity|]. split; [reflexivity|].
  split; [left; reflexivity|]. split; [reflexivity|]. split; [reflexivity|].
  split; [left; reflexivity|].
  apply (@missing_field_is_bad_request Sample.toy_bcrypt Sample.env2
           Sample.clinic Sample.empty_post Sample.as_smith Sample.smith
           Sample.empty_post Sample.as_admin Sample.admin);
    try reflexivity; left; reflexivity.
Defined.


Lemma bootstrap_twice_one_admin_witness :
  NoDup (map Doctor.username (tbl_doctor empty_store))
  /\ @generate_password_hash Sample.toy_bcrypt (gensalt Sample.env0)
       "admin123" = Some "s0admin123"
  /\ @bootstrap Sample.toy_bcrypt Sample.env1
       (@bootstrap Sample.toy_bcrypt Sample.env0 empty_store)
     = @bootstrap Sample.toy_bcrypt Sample.env0 empty_store
  /\ accounts_named "admin"
       (@bootstrap Sample.toy_bcrypt Sample.env1
          (@bootstrap Sample.toy_bcrypt Sample.env0 empty_store))
     = 1%nat.
Proof.
  split; [constructor|]. split; [reflexivity|].
  apply (@bootstrap_twice_one_admin Sample.toy_bcrypt Sample.env0 Sample.env1
           empty_store "s0admin123"); [constructor | reflexivity].
Defined.

Lemma every_patient_has_one_doctor_witness :
  @reachable Sample.toy_bcrypt Sample.visited
  /\ In Sample.first_patient (tbl_patient Sample.visited)
  /\ exists i, Patient.doctor_id Sample.first_patient = Some i
               /\ owners Sample.visited Sample.first_patient = 1%nat.
Proof.
  assert (R : @reachable Sample.toy_bcrypt Sample.visited).
  { unfold Sample.visited, Sample.staffed, Sample.started.
    repeat apply reach_request. apply reach_bootstrap. apply reach_empty. }
  assert (I : In Sample.first_patient (tbl_patient Sample.visited)).
  { left; reflexivity. }
  split; [exact R|]. split; [exact I|].
  exact (@every_patient_has_one_doctor Sample.toy_bcrypt Sample.visited
           Sample.first_patient R I).
Defined.

(** * Further properties of the views *)

(** ** What a request can write *)

Lemma is_POST_true (m : Method) : is_POST m = true -> m = POST.
Proof. now destruct m. Qed.

Lemma existsb_false_find {A} (f : A -> bool) (l : list A) :
  existsb f l = false -> find f l = None.
Proof.
  induction l as [|x l IH]; simpl; [reflexivity|].
  destruct (f x); [discriminate | exact IH].
Qed.

Ltac view_facts :=
  repeat match goal with
    | H : is_POST _ = true |- _ => apply is_POST_true in H
    | H : negb _ = false |- _ => apply negb_false_iff in H
    | H : String.eqb _ _ = true |- _ => apply String.eqb_eq in H
    | H : existsb _ _ = false |- _ => apply existsb_false_find in H
    end.

Ltac view_cases :=
  unfold view_of, serve, login, dashboard, patients, add_doctor, logout,
    bind, current_user, getitem, query, flash, login_user, logout_user,
    add_Doctor, add_Patient, bcrypt_call, raise, ret;
  simpl;
  repeat
    match goal with
    | |- context [match ?x with _ => _ end] =>
        lazymatch x with
        | load_user _ _ => destruct x eqn:?
        | Doctor_by_username _ _ => destruct x eqn:?
        | get _ _ => destruct x eqn:?
        | is_POST _ => destruct x eqn:?
        | truthy _ => destruct x eqn:?
        | negb _ => destruct x eqn:?
        | String.eqb _ _ => destruct x eqn:?
        | existsb _ _ => destruct x eqn:?
        | check_password_hash _ _ => destruct x eqn:?
        | generate_password_hash _ _ => destruct x eqn:?
        end; simpl
    end.

Section Writes.

Context {bcrypt : Bcrypt}.

(** The three things one request does to the store, with who did it. *)
Lemma dispatch_cases (rule : Rule) (env : Env) (request : Request)
    (st : Store) (s : Session) :
  let st' := store_after (dispatch rule env request st s) in
  st' = st
  \/ (rule = r_add_doctor /\ method request = POST
      /\ exists user u fn sp pw,
           load_user st s = Some user
           /\ Doctor.username user = "admin"
           /\ get (form request) "username" = Some u
           /\ Doctor_by_username u st = None
           /\ st' = mkStore (tbl_doctor st ++ [new_Doctor env st u fn sp pw])
                      (tbl_patient st))
  \/ (rule = r_patients /\ method request = POST
      /\ exists user name notes,
           load_user st s = Some user
           /\ get (form request) "name" = Some name
           /\ find (fun p => String.eqb (Patient.patient_id p) (uuid4 env))
                (tbl_patient st) = None
           /\ st' = mkStore (tbl_doctor st)
                      (tbl_patient st ++ [new_Patient env st name notes user])).
Proof.
  unfold dispatch. destruct (allows rule (method request)); [|now left].
  destruct rule; view_cases; try (now left); view_facts.
  - right; right. split; [reflexivity|]. split; [assumption|].
    do 3 eexists. split; [reflexivity|]. split; [reflexivity|].
    split; [eassumption|]. reflexivity.
  - right; right. split; [reflexivity|]. split; [assumption|].
    do 3 eexists. split; [reflexivity|]. split; [reflexivity|].
    split; [eassumption|]. reflexivity.
  - right; left. split; [reflexivity|]. split; [assumption|].
    do 5 eexists. split; [reflexivity|]. split; [assumption|].
    split; [reflexivity|]. split; [assumption|]. reflexivity.
Qed.

End Writes.

Lemma find_none_not_in {A} (col : A -> string) (v : string) (l : list A) :
  find (fun x => String.eqb (col x) v) l = None -> ~ In v (map col l).
Proof.
  induction l as [|x l IH]; simpl; [tauto|].
  destruct (String.eqb (col x) v) eqn:E; [discriminate|].
  apply String.eqb_neq in E. intros F [H|H]; [congruence | now apply IH].
Qed.

Lemma NoDup_map_snoc {A B} (col : A -> B) (l : list A) (x : A) :
  NoDup (map col l) -> ~ In (col x) (map col l) ->
  NoDup (map col (l ++ [x])).
Proof.
  intros N F. rewrite map_app; simpl.
  apply NoDup_app; [exact N | repeat constructor; simpl; tauto |].
  intros v Hv [<-|[]]. now apply F.
Qed.

Lemma filter_count_snoc {A} (f : A -> bool) (l : list A) (x : A) :
  f x = false ->
  List.length (filter f (l ++ [x])) = List.length (filter f l).
Proof.
  intros E. rewrite filter_app; simpl. rewrite E, length_app; simpl. lia.
Qed.

Section Stores.

Context {bcrypt : Bcrypt}.

Lemma unique_keys_dispatch (rule : Rule) (env : Env) (request : Request)
    (st : Store) (s : Session) :
  unique_keys st ->
  unique_keys (store_after (dispatch rule env request st s)).
Proof.
  intros (N1 & N2 & N3 & N4).
  destruct (dispatch_cases rule env request st s)
    as [E|[(_ & _ & user & u & fn & sp & pw & _ & _ & _ & Q & E)
          |(_ & _ & user & name & notes & _ & _ & Q & E)]]; rewrite E.
  - now repeat split.
  - repeat split; simpl; try assumption.
    + apply NoDup_map_snoc; [exact N1 | apply next_id_fresh].
    + apply NoDup_map_snoc; [exact N2 | now apply find_none_not_in].
  - repeat split; simpl; try assumption.
    + apply NoDup_map_snoc; [exact N3 | apply next_id_fresh].
    + apply NoDup_map_snoc; [exact N4 | now apply find_none_not_in].
Qed.

Lemma unique_keys_bootstrap (env : Env) (st : Store) :
  unique_keys st -> unique_keys (bootstrap env st).
Proof.
  intros (N1 & N2 & N3 & N4). rewrite bootstrap_unfold.
  destruct (Doctor_by_username "admin" st) eqn:Q; [now repeat split|].
  destruct (generate_password_hash (gensalt env) "admin123");
    [|now repeat split].
  repeat split; simpl; try assumption.
  - apply (NoDup_map_snoc Doctor.id); [exact N1 | apply next_id_fresh].
  - apply (NoDup_map_snoc Doctor.username);
      [exact N2 | now apply find_none_not_in].
Qed.

(** X1.  In every store the program can bring about from an empty
    database the uniqueness constraints of the schema hold: no two doctor
    rows share a primary key or a username, no two patient rows share a
    primary key or a public id. *)
Theorem reachable_unique_keys (st : Store) :
  reachable st ->
  NoDup (map Doctor.id (tbl_doctor st))
  /\ NoDup (map Doctor.username (tbl_doctor st))
  /\ NoDup (map Patient.id (tbl_patient st))
  /\ NoDup (map Patient.patient_id (tbl_patient st)).
Proof.
  intros R. change (unique_keys st). induction R.
  - repeat split; constructor.
  - now apply unique_keys_bootstrap.
  - now apply unique_keys_dispatch.
Qed.

(** X2.  A GET writes nothing: whatever the rule, the session and the
    query string, the store after a GET is the store before it. *)
Theorem get_writes_nothing (rule : Rule) (env : Env) (request : Request)
    (st : Store) (s : Session) :
  method request = GET ->
  store_after (dispatch rule env request st s) = st.
Proof.
  intros G.
  destruct (dispatch_cases rule env request st s)
    as [E|[(_ & P & _)|(_ & P & _)]]; [exact E | congruence | congruence].
Qed.

(** X3.  No request updates or deletes a row: the tables after a request
    are the tables before it with, in all, at most one row added at the
    end. *)
Theorem tables_only_grow (rule : Rule) (env : Env) (request : Request)
    (st : Store) (s : Session) :
  let st' := store_after (dispatch rule env request st s) in
  exists (ds : list Doctor.t) (ps : list Patient.t),
    tbl_doctor st' = (tbl_doctor st ++ ds)%list
    /\ tbl_patient st' = (tbl_patient st ++ ps)%list
    /\ (List.length ds + List.length ps <= 1)%nat.
Proof.
  destruct (dispatch_cases rule env request st s)
    as [E|[(_ & _ & user & u & fn & sp & pw & _ & _ & _ & _ & E)
          |(_ & _ & user & name & notes & _ & _ & _ & E)]]; simpl; rewrite E.
  - exists [], []. rewrite !app_nil_r. simpl. auto.
  - eexists [_], []. rewrite app_nil_r. simpl. auto.
  - eexists [], [_]. rewrite app_nil_r. simpl. auto.
Qed.

(** X4.  The doctors table changes only through a POST to the add-doctor
    view by a session that resolves to the doctor named [admin]. *)
Theorem doctors_added_by_admin_only (rule : Rule) (env : Env)
    (request : Request) (st : Store) (s : Session) :
  tbl_doctor (store_after (dispatch rule env request st s)) <> tbl_doctor st ->
  rule = r_add_doctor
  /\ method request = POST
  /\ exists user, load_user st s = Some user
                  /\ Doctor.username user = "admin".
Proof.
  intros D.
  destruct (dispatch_cases rule env request st s)
    as [E|[(R & P & user & u & fn & sp & pw & U & A & _)
          |(_ & _ & user & name & notes & _ & _ & _ & E)]].
  - now rewrite E in D.
  - eauto.
  - now rewrite E in D.
Qed.

(** X5.  The patients table changes only through a POST to the patients
    view by a session that resolves to a doctor, and the one row added
    carries the submitted name and that doctor's id. *)
Theorem patients_added_by_owner_only (rule : Rule) (env : Env)
    (request : Request) (st : Store) (s : Session) :
  tbl_patient (store_after (dispatch rule env request st s))
  <> tbl_patient st ->
  rule = r_patients
  /\ method request = POST
  /\ exists user p,
       load_user st s = Some user
       /\ tbl_patient (store_after (dispatch rule env request st s))
          = (tbl_patient st ++ [p])%list
       /\ Patient.doctor_id p = Some (Doctor.id user)
       /\ get (form request) "name" = Some (Patient.name p).
Proof.
  intros D.
  destruct (dispatch_cases rule env request st s)
    as [E|[(_ & _ & user & u & fn & sp & pw & _ & _ & _ & _ & E)
          |(R & P & user & name & notes & U & F & _ & E)]].
  - now rewrite E in D.
  - now rewrite E in D.
  - split; [exact R|]. split; [exact P|].
    exists user, (new_Patient env st name notes user).
    rewrite E. simpl. repeat split; auto.
Qed.

End Stores.

(** ** The admin account, the session and server errors *)

Section Conduct.

Context {bcrypt : Bcrypt}.

(** X6.  Once a doctor named [admin] exists, in a store whose usernames
    are unique, every request leaves that same row as the one and only
    account named [admin]. *)
Theorem admin_stays_unique (rule : Rule) (env : Env) (request : Request)
    (st : Store) (s : Session) (a : Doctor.t) :
  NoDup (map Doctor.username (tbl_doctor st)) ->
  Doctor_by_username "admin" st = Some a ->
  let st' := store_after (dispatch rule env request st s) in
  Doctor_by_username "admin" st' = Some a
  /\ accounts_named "admin" st' = 1%nat.
Proof.
  intros N A st'.
  assert (C : accounts_named "admin" st = 1%nat).
  { unfold accounts_named. unfold Doctor_by_username in A.
    pose proof (unique_filter Doctor.username "admin" _ _
                  (fun d => proj1 (String.eqb_eq _ _)) N).
    pose proof (find_some_filter _ _ _ A). lia. }
  subst st'.
  destruct (dispatch_cases rule env request st s)
    as [E|[(_ & _ & user & u & fn & sp & pw & _ & _ & _ & Q & E)
          |(_ & _ & user & name & notes & _ & _ & _ & E)]]; rewrite E.
  - now split.
  - assert (F : String.eqb u "admin" = false).
    { apply String.eqb_neq. intros ->. congruence. }
    unfold Doctor_by_username, accounts_named in *; simpl. split.
    + now rewrite find_app, A.
    + now rewrite filter_count_snoc.
  - now split.
Qed.

(** X7.  The session changes in two ways only.  The logout view clears
    it.  A POST to the login view by an anonymous client binds it to the
    id of the doctor found under the submitted username, and only when the
    submitted password verifies against that doctor's hash. *)
Theorem session_changes_by_login_and_logout (rule : Rule) (env : Env)
    (request : Request) (st : Store) (s : Session) :
  session_after (dispatch rule env request st s) <> s ->
  (rule = r_logout
   /\ session_after (dispatch rule env request st s) = None)
  \/ (rule = r_login
      /\ method request = POST
      /\ load_user st s = None
      /\ exists user u password,
           get (form request) "username" = Some u
           /\ Doctor_by_username u st = Some user
           /\ get (form request) "password" = Some password
           /\ check_password_hash (Doctor.password_hash user) password
              = Some true
           /\ session_after (dispatch rule env request st s)
              = Some (Doctor.id user)).
Proof.
  unfold dispatch. destruct (allows rule (method request));
    [|intros D; now elim D].
  destruct rule; view_cases; intros D; try (now elim D); view_facts.
  - right. split; [reflexivity|]. split; [assumption|].
    split; [reflexivity|]. do 3 eexists.
    do 3 (split; [first [reflexivity | eassumption]|]).
    split; [congruence|]. reflexivity.
  - left. now split.
Qed.


(** X9.  It does happen: for a doctor who is logged in and posts a
    complete form, a public id that a row already has makes the commit fail;
    the answer is status 500, nothing is flashed and no row is added. *)
Theorem public_id_clash_is_server_error (env : Env) (request : Request)
    (st : Store) (s : Session) (user : Doctor.t) (name notes : string)
    (q : Patient.t) :
  load_user st s = Some user ->
  method request = POST ->
  get (form request) "name" = Some name ->
  get (form request) "notes" = Some notes ->
  In q (tbl_patient st) ->
  Patient.patient_id q = uuid4 env ->
  serve (patients env request) st s = mkOutcome (abort 500) [] s st.
Proof.
  intros U P Hn Ho I T.
  assert (X : existsb (fun p => String.eqb (Patient.patient_id p) (uuid4 env))
                (tbl_patient st) = true).
  { apply existsb_exists. exists q. split; [exact I|].
    now apply String.eqb_eq. }
  unfold serve, patients, bind, current_user, getitem, query, add_Patient,
    flash, ret; simpl.
  rewrite U, P.
  destruct (truthy (get (args request) "search")); simpl;
    rewrite Hn, Ho; simpl; now rewrite X.
Qed.

End Conduct.

(** ** Logging in and out *)

Lemma find_unique_id (l : list Doctor.t) (d : Doctor.t) :
  NoDup (map Doctor.id l) -> In d l ->
  find (fun e => Doctor.id e =? Doctor.id d) l = Some d.
Proof.
  induction l as [|x l IH]; simpl; intros N I; [destruct I|].
  inversion N as [|? ? Hx Hl]; subst.
  destruct I as [->|I]; [now rewrite Z.eqb_refl|].
  destruct (Doctor.id x =? Doctor.id d) eqn:E; [|now apply IH].
  apply Z.eqb_eq in E. exfalso. apply Hx. rewrite E. now apply in_map.
Qed.

Lemma find_fresh_id (l : list Doctor.t) (v : Z) :
  ~ In v (map Doctor.id l) -> find (fun e => Doctor.id e =? v) l = None.
Proof.
  induction l as [|x l IH]; simpl; intros F; [reflexivity|].
  destruct (Doctor.id x =? v) eqn:E.
  - apply Z.eqb_eq in E. tauto.
  - apply IH. tauto.
Qed.

Lemma filter_split_length {A} (f : A -> bool) (l : list A) :
  (List.length (filter f l) + List.length (filter (fun x => negb (f x)) l)
   = List.length l)%nat.
Proof.
  induction l as [|x l IH]; simpl; [reflexivity|].
  destruct (f x); simpl; lia.
Qed.

Section Sessions.

Context {bcrypt : Bcrypt}.

(** X10.  Logging in and being recognised.  For an anonymous client, a
    POST to the login view under the username of a doctor with a password
    that verifies redirects to the dashboard, flashes nothing, writes
    nothing and binds the session to that doctor's id; where doctor ids are
    distinct, the session so bound resolves to that very doctor. *)
Theorem login_binds_the_session (request : Request) (st : Store)
    (s : Session) (u password : string) (user : Doctor.t) :
  load_user st s = None ->
  method request = POST ->
  get (form request) "username" = Some u ->
  Doctor_by_username u st = Some user ->
  get (form request) "password" = Some password ->
  check_password_hash (Doctor.password_hash user) password = Some true ->
  NoDup (map Doctor.id (tbl_doctor st)) ->
  serve (login request) st s
  = mkOutcome (redirect ep_dashboard) [] (Some (Doctor.id user)) st
  /\ load_user st (session_after (serve (login request) st s)) = Some user.
Proof.
  intros A P Hu Q Hp C N.
  assert (E : serve (login request) st s
              = mkOutcome (redirect ep_dashboard) []
                  (Some (Doctor.id user)) st).
  { unfold serve, login, bind, current_user, getitem, query, login_user,
      bcrypt_call, ret; simpl.
    rewrite A, P; simpl. rewrite Hu; simpl. rewrite Q, Hp; simpl.
    rewrite C; simpl. now destruct st. }
  split; [exact E|]. rewrite E; simpl.
  apply find_unique_id; [exact N|].
  unfold Doctor_by_username in Q. now apply find_some_true in Q.
Qed.

(** X11.  A client whose session resolves to a doctor gets, from the login
    view, the redirect to the dashboard whatever the method and the form:
    the credentials are not read, so the session stays with the doctor it
    was bound to. *)
Theorem login_skipped_when_logged_in (request : Request) (st : Store)
    (s : Session) (user : Doctor.t) :
  load_user st s = Some user ->
  serve (login request) st s = mkOutcome (redirect ep_dashboard) [] s st.
Proof.
  intros A. unfold serve, login, bind, current_user, ret; simpl.
  now rewrite A.
Qed.

(** X12.  The password is read only once the username has been found.
    For an anonymous client, a login POST that carries a username and no
    password field is answered with the flashed failure and the redirect
    when no doctor has that username, and with status 400 when one has. *)
Theorem login_without_password (request : Request) (st : Store)
    (s : Session) (u : string) :
  load_user st s = None ->
  method request = POST ->
  get (form request) "username" = Some u ->
  get (form request) "password" = None ->
  serve (login request) st s
  = match Doctor_by_username u st with
    | None => mkOutcome (redirect ep_login) ["بيانات الدخول غير صحيحة"] s st
    | Some _ => mkOutcome (abort 400) [] s st
    end.
Proof.
  intros A P Hu Hp.
  unfold serve, login, bind, current_user, getitem, query, flash, raise, ret;
    simpl.
  rewrite A, P; simpl. rewrite Hu; simpl.
  destruct (Doctor_by_username u st); simpl; [now rewrite Hp|].
  now destruct st.
Qed.

(** X13.  Logging out.  The logout view clears the session whatever it
    was, flashes nothing and writes nothing; with the session it leaves, the
    dashboard, the patients and the add-doctor views all redirect to the
    login page. *)
Theorem logout_closes_the_gates (env : Env) (request after : Request)
    (st : Store) (s : Session) :
  let out := serve (logout request) st s in
  out = mkOutcome (redirect ep_login) [] None st
  /\ serve (dashboard after) (store_after out) (session_after out)
     = mkOutcome (redirect ep_login) [] None st
  /\ serve (patients env after) (store_after out) (session_after out)
     = mkOutcome (redirect ep_login) [] None st
  /\ serve (add_doctor env after) (store_after out) (session_after out)
     = mkOutcome (redirect ep_login) [] None st.
Proof.
  unfold serve, logout, dashboard, patients, add_doctor, bind, current_user,
    logout_user, ret; simpl.
  destruct st; auto.
Qed.

(** X14.  The admin's roster.  For the doctor named [admin], in a store
    whose usernames are unique, the dashboard renders that doctor with a
    roster that holds every doctor row but the admin's own, in table order:
    its members are the doctors not named [admin], and it is one row
    shorter than the table.  Nothing is written. *)
Theorem admin_dashboard_roster (request : Request) (st : Store)
    (s : Session) (user : Doctor.t) :
  load_user st s = Some user ->
  Doctor.username user = "admin" ->
  NoDup (map Doctor.username (tbl_doctor st)) ->
  exists roster,
    serve (dashboard request) st s
    = mkOutcome (render_template (dashboard_html user (Some roster))) [] s st
    /\ (forall d, In d roster
                  <-> In d (tbl_doctor st) /\ Doctor.username d <> "admin")
    /\ S (List.length roster) = List.length (tbl_doctor st).
Proof.
  intros A Hadm N. exists (Doctor_except_admin st).
  split; [|split].
  - unfold serve, dashboard, bind, current_user, query, ret; simpl.
    rewrite A, Hadm; simpl. now destruct st.
  - intros d. unfold Doctor_except_admin. rewrite filter_In.
    rewrite negb_true_iff, String.eqb_neq. tauto.
  - unfold Doctor_except_admin.
    pose proof (filter_split_length
                  (fun d => String.eqb (Doctor.username d) "admin")
                  (tbl_doctor st)) as L.
    pose proof (unique_filter Doctor.username "admin" _ _
                  (fun d => proj1 (String.eqb_eq _ _)) N) as U.
    assert (I : In user
                  (filter (fun d => String.eqb (Doctor.username d) "admin")
                     (tbl_doctor st))).
    { apply filter_In. split; [now apply load_user_in in A|].
      now apply String.eqb_eq. }
    destruct (filter (fun d => String.eqb (Doctor.username d) "admin")
                (tbl_doctor st)) as [|x [|y r]];
      [destruct I | simpl in L; lia | simpl in U; lia].
Qed.

End Sessions.

(** ** How the views compose *)

Section Journeys.

Context {bcrypt : Bcrypt}.

(** X15.  A patient added is listed for its doctor and for no one else.
    A doctor who is logged in posts a complete form and the public id drawn
    is new: the row is added with the submitted name and notes, the success
    message carries the public id, and the answer redirects to the patients
    view.  A GET of that view without a search term then lists the new row
    for that doctor, and does not list it for a session that resolves to a
    doctor with another id. *)
Theorem new_patient_listed_for_owner_only
    (env env' : Env) (request listing : Request) (st : Store)
    (s s' : Session) (user other : Doctor.t) (name notes : string) :
  load_user st s = Some user ->
  method request = POST ->
  get (form request) "name" = Some name ->
  get (form request) "notes" = Some notes ->
  find (fun p => String.eqb (Patient.patient_id p) (uuid4 env)) (tbl_patient st)
  = None ->
  method listing = GET ->
  truthy (get (args listing) "search") = false ->
  load_user st s' = Some other ->
  Doctor.id other <> Doctor.id user ->
  let p := new_Patient env st name notes user in
  let st' := mkStore (tbl_doctor st) (tbl_patient st ++ [p]) in
  serve (patients env request) st s
  = mkOutcome (redirect ep_patients)
      ["تم إضافة المريض بنجاح. رقم المريض: " ++ uuid4 env] s st'
  /\ exists mine theirs,
       serve (patients env' listing) st' s
       = mkOutcome (render_template (patients_html mine)) [] s st'
       /\ In p mine
       /\ serve (patients env' listing) st' s'
          = mkOutcome (render_template (patients_html theirs)) [] s' st'
       /\ ~ In p theirs.
Proof.
  intros U P Hn Ho F G T U' D p st'.
  split.
  { unfold serve, patients, bind, current_user, getitem, query, add_Patient,
      flash, ret; simpl.
    rewrite U, P.
    destruct (truthy (get (args request) "search")); simpl;
      rewrite Hn, Ho; simpl; now rewrite (find_none_existsb _ _ F). }
  assert (L : forall (z : Session) (d : Doctor.t),
             load_user st z = Some d ->
             serve (patients env' listing) st' z
             = mkOutcome
                 (render_template
                    (patients_html (Patient_of_doctor (Doctor.id d) st')))
                 [] z st').
  { intros z d Hz.
    unfold serve, patients, bind, current_user, query, ret; simpl.
    change (load_user st' z) with (load_user st z).
    now rewrite Hz, G, T. }
  exists (Patient_of_doctor (Doctor.id user) st'),
         (Patient_of_doctor (Doctor.id other) st').
  split; [now apply L|]. split; [|split; [now apply L|]].
  - unfold Patient_of_doctor.
    apply (Permutation_in _ (Permutation_sym (order_by_perm _))).
    apply filter_In. split.
    + simpl. apply in_or_app. right. now left.
    + simpl. apply Z.eqb_refl.
  - unfold Patient_of_doctor. intros I.
    apply (Permutation_in _ (order_by_perm _)) in I.
    apply filter_In in I as [_ I]. simpl in I.
    apply Z.eqb_eq in I. congruence.
Qed.

(** X16.  A doctor the admin adds can log in.  The admin posts a complete
    form under a username no doctor has; where bcrypt hashes the password
    and verifies it against the hash it has just made of it, an anonymous
    login POST with that username and password, on the store so obtained,
    redirects to the dashboard with the session bound to the new row's id,
    and that session resolves to the new row. *)
Theorem added_doctor_can_log_in
    (env : Env) (request attempt : Request) (st : Store) (s : Session)
    (admin : Doctor.t) (u fn sp pw hashed : string) :
  load_user st s = Some admin ->
  Doctor.username admin = "admin" ->
  method request = POST ->
  get (form request) "username" = Some u ->
  get (form request) "full_name" = Some fn ->
  get (form request) "specialty" = Some sp ->
  get (form request) "password" = Some pw ->
  Doctor_by_username u st = None ->
  generate_password_hash (gensalt env) pw = Some hashed ->
  check_password_hash hashed pw = Some true ->
  method attempt = POST ->
  get (form attempt) "username" = Some u ->
  get (form attempt) "password" = Some pw ->
  let d := new_Doctor env st u fn sp hashed in
  let st' := store_after (serve (add_doctor env request) st s) in
  st' = mkStore (tbl_doctor st ++ [d]) (tbl_patient st)
  /\ serve (login attempt) st' None
     = mkOutcome (redirect ep_dashboard) [] (Some (Doctor.id d)) st'
  /\ load_user st' (Some (Doctor.id d)) = Some d.
Proof.
  intros U Hadm P F1 F2 F3 F4 Q H C P' G1 G2 d st'.
  assert (E : st' = mkStore (tbl_doctor st ++ [d]) (tbl_patient st)).
  { subst st'.
    unfold serve, add_doctor, bind, current_user, getitem, query, flash,
      add_Doctor, bcrypt_call, ret; simpl.
    rewrite U, Hadm, P; simpl. rewrite F1, F2, F3, F4; simpl.
    rewrite Q; simpl. rewrite H; simpl. unfold Doctor_by_username in Q.
    now rewrite (find_none_existsb _ _ Q). }
  split; [exact E|]. rewrite E. split.
  - unfold serve, login, bind, current_user, getitem, query, login_user,
      bcrypt_call, ret; simpl.
    rewrite P'; simpl. rewrite G1; simpl.
    unfold Doctor_by_username in *; simpl.
    rewrite find_app, Q; simpl. rewrite String.eqb_refl, G2; simpl.
    now rewrite C.
  - simpl. unfold Doctor_get; simpl.
    rewrite find_app, (find_fresh_id _ _ (next_id_fresh _)); simpl.
    now rewrite Z.eqb_refl.
Qed.

(** X17.  The default account.  On a store without a doctor named
    [admin], where bcrypt hashes [admin123] and verifies it against the
    hash it makes of it, the bootstrap block leaves a store on which an anonymous login POST
    as [admin] with the password [admin123] binds the session to a doctor
    named [admin], to whom the add-doctor view is then open. *)
Theorem default_admin_can_log_in
    (env env' : Env) (attempt visit : Request) (st : Store)
    (hashed : string) :
  Doctor_by_username "admin" st = None ->
  generate_password_hash (gensalt env) "admin123" = Some hashed ->
  check_password_hash hashed "admin123" = Some true ->
  method attempt = POST ->
  get (form attempt) "username" = Some "admin" ->
  get (form attempt) "password" = Some "admin123" ->
  method visit = GET ->
  let st' := bootstrap env st in
  let out := serve (login attempt) st' None in
  exists a,
    response out = redirect ep_dashboard
    /\ load_user st' (session_after out) = Some a
    /\ Doctor.username a = "admin"
    /\ response (serve (add_doctor env' visit) st' (session_after out))
       = render_template (add_doctor_html (Doctor_except_admin st')).
Proof.
  intros Q H C P G1 G2 V st' out.
  assert (E : st' = mkStore
                      (tbl_doctor st
                       ++ [Doctor.mk (next_id (map Doctor.id (tbl_doctor st)))
                             "admin" hashed (Some "Admin") None (utcnow env)])
                      (tbl_patient st)).
  { subst st'. now rewrite bootstrap_unfold, Q, H. }
  assert (O : out = mkOutcome (redirect ep_dashboard) []
                      (Some (next_id (map Doctor.id (tbl_doctor st)))) st').
  { subst out. rewrite E.
    unfold serve, login, bind, current_user, getitem, query, login_user,
      bcrypt_call, ret; simpl.
    rewrite P; simpl. rewrite G1; simpl.
    unfold Doctor_by_username in *; simpl.
    rewrite find_app, Q; simpl. rewrite G2; simpl. now rewrite C. }
  assert (L : load_user st' (session_after out)
              = Some (Doctor.mk (next_id (map Doctor.id (tbl_doctor st)))
                        "admin" hashed (Some "Admin") None (utcnow env))).
  { rewrite O, E; simpl. unfold Doctor_get; simpl.
    rewrite find_app, (find_fresh_id _ _ (next_id_fresh _)); simpl.
    now rewrite Z.eqb_refl. }
  eexists. split; [now rewrite O|]. split; [exact L|].
  split; [reflexivity|].
  unfold serve, add_doctor, bind, current_user, query, ret; simpl.
  rewrite L; simpl. now rewrite V.
Qed.

(** X18.  A doctor the admin adds is on the roster at once.  After the
    admin has posted a complete form under a username no doctor has, with a
    password that bcrypt hashes, the roster is the roster of before with
    the new row at its end, and the admin's dashboard renders just that. *)
Theorem roster_gains_the_new_doctor
    (env : Env) (request visit : Request) (st : Store) (s : Session)
    (admin : Doctor.t) (u fn sp pw hashed : string) :
  load_user st s = Some admin ->
  Doctor.username admin = "admin" ->
  method request = POST ->
  get (form request) "username" = Some u ->
  get (form request) "full_name" = Some fn ->
  get (form request) "specialty" = Some sp ->
  get (form request) "password" = Some pw ->
  Doctor_by_username u st = None ->
  generate_password_hash (gensalt env) pw = Some hashed ->
  let d := new_Doctor env st u fn sp hashed in
  let out := serve (add_doctor env request) st s in
  Doctor_except_admin (store_after out) = (Doctor_except_admin st ++ [d])%list
  /\ serve (dashboard visit) (store_after out) (session_after out)
     = mkOutcome
         (render_template
            (dashboard_html admin (Some (Doctor_except_admin st ++ [d])%list)))
         [] s (store_after out).
Proof.
  intros U Hadm P F1 F2 F3 F4 Q H d out.
  assert (E : out = mkOutcome (redirect ep_dashboard) ["تم إضافة الدكتور بنجاح"] s
                      (mkStore (tbl_doctor st ++ [d]) (tbl_patient st))).
  { subst out.
    unfold serve, add_doctor, bind, current_user, getitem, query, flash,
      add_Doctor, bcrypt_call, ret; simpl.
    rewrite U, Hadm, P; simpl. rewrite F1, F2, F3, F4; simpl.
    rewrite Q; simpl. rewrite H; simpl. unfold Doctor_by_username in Q.
    now rewrite (find_none_existsb _ _ Q). }
  assert (N : String.eqb u "admin" = false).
  { apply String.eqb_neq. intros ->.
    pose proof (load_user_in _ _ _ U) as I.
    unfold Doctor_by_username in Q.
    pose proof (find_none _ _ Q _ I) as T. simpl in T.
    rewrite Hadm in T. discriminate T. }
  assert (R : Doctor_except_admin (store_after out)
              = (Doctor_except_admin st ++ [d])%list).
  { rewrite E. unfold Doctor_except_admin; simpl.
    rewrite filter_app; simpl. now rewrite N. }
  split; [exact R|].
  rewrite <- R, E.
  unfold serve, dashboard, bind, current_user, query, ret.
  cbn [db session flashes store_after session_after].
  rewrite (load_user_after_insert st s admin d (tbl_patient st) U).
  now rewrite Hadm.
Qed.

End Journeys.

(** ** The database URL, again *)

(** X19.  Whatever [DATABASE_URL] holds, and also when it is not set, the
    URI put into the configuration does not start with [postgres://]; and
    a value that is such a URI already is kept as it is. *)
Theorem db_url_is_never_legacy (environ : Config.Environ) :
  Config.startswith (Config.db_url environ) "postgres://" = false
  /\ Config.db_url (Some (Config.db_url environ)) = Config.db_url environ.
Proof.
  assert (N : Config.startswith (Config.db_url environ) "postgres://" = false).
  { unfold Config.db_url.
    destruct (Config.startswith
                match environ with
                | Some v => v
                | None => "sqlite:///clinic.db"
                end "postgres://") eqn:E; [|exact E].
    unfold Config.startswith in E.
    now rewrite (replace1_prefix _ "postgresql://" _ E). }
  split; [exact N|].
  unfold Config.db_url at 1. now rewrite N.
Qed.

(** ** The further properties on the sample clinic *)

Ltac distinct :=
  repeat (constructor; [simpl; intuition discriminate|]); constructor.

Lemma visited_is_reachable : @reachable Sample.toy_bcrypt Sample.visited.
Proof.
  unfold Sample.visited, Sample.staffed, Sample.started.
  repeat apply reach_request. apply reach_bootstrap. apply reach_empty.
Defined.

Lemma reachable_unique_keys_witness :
  @reachable Sample.toy_bcrypt Sample.visited
  /\ NoDup (map Doctor.id (tbl_doctor Sample.visited))
  /\ NoDup (map Doctor.username (tbl_doctor Sample.visited))
  /\ NoDup (map Patient.id (tbl_patient Sample.visited))
  /\ NoDup (map Patient.patient_id (tbl_patient Sample.visited)).
Proof.
  split; [exact visited_is_reachable|].
  exact (@reachable_unique_keys Sample.toy_bcrypt Sample.visited
           visited_is_reachable).
Defined.

Lemma get_writes_nothing_witness :
  method (Sample.search_for "a") = GET
  /\ store_after (@dispatch Sample.toy_bcrypt r_patients Sample.env0
                    (Sample.search_for "a") Sample.clinic Sample.as_smith)
     = Sample.clinic.
Proof.
  split; [reflexivity|].
  apply (@get_writes_nothing Sample.toy_bcrypt r_patients Sample.env0
           (Sample.search_for "a") Sample.clinic Sample.as_smith).
  reflexivity.
Defined.

Lemma doctors_added_by_admin_only_witness :
  tbl_doctor (store_after (@dispatch Sample.toy_bcrypt r_add_doctor Sample.env2
                             Sample.add_jones Sample.clinic Sample.as_admin))
  <> tbl_doctor Sample.clinic
  /\ r_add_doctor = r_add_doctor
  /\ method Sample.add_jones = POST
  /\ exists user, load_user Sample.clinic Sample.as_admin = Some user
                  /\ Doctor.username user = "admin".
Proof.
  assert (D : tbl_doctor
                (store_after (@dispatch Sample.toy_bcrypt r_add_doctor
                                Sample.env2 Sample.add_jones Sample.clinic
                                Sample.as_admin))
              <> tbl_doctor Sample.clinic).
  { intros H. vm_compute in H. discriminate H. }
  split; [exact D|].
  exact (@doctors_added_by_admin_only Sample.toy_bcrypt r_add_doctor
           Sample.env2 Sample.add_jones Sample.clinic Sample.as_admin D).
Defined.

Lemma patients_added_by_owner_only_witness :
  tbl_patient (store_after (@dispatch Sample.toy_bcrypt r_patients Sample.env2
                              Sample.add_omar Sample.clinic Sample.as_smith))
  <> tbl_patient Sample.clinic
  /\ r_patients = r_patients
  /\ method Sample.add_omar = POST
  /\ exists user p,
       load_user Sample.clinic Sample.as_smith = Some user
       /\ tbl_patient
            (store_after (@dispatch Sample.toy_bcrypt r_patients Sample.env2
                            Sample.add_omar Sample.clinic Sample.as_smith))
          = (tbl_patient Sample.clinic ++ [p])%list
       /\ Patient.doctor_id p = Some (Doctor.id user)
       /\ get (form Sample.add_omar) "name" = Some (Patient.name p).
Proof.
  assert (D : tbl_patient
                (store_after (@dispatch Sample.toy_bcrypt r_patients
                                Sample.env2 Sample.add_omar Sample.clinic
                                Sample.as_smith))
              <> tbl_patient Sample.clinic).
  { intros H. vm_compute in H. discriminate H. }
  split; [exact D|].
  exact (@patients_added_by_owner_only Sample.toy_bcrypt r_patients
           Sample.env2 Sample.add_omar Sample.clinic Sample.as_smith D).
Defined.

Lemma admin_stays_unique_witness :
  NoDup (map Doctor.username (tbl_doctor Sample.clinic))
  /\ Doctor_by_username "admin" Sample.clinic = Some Sample.admin
  /\ Doctor_by_username "admin"
       (store_after (@dispatch Sample.toy_bcrypt r_add_doctor Sample.env2
                       Sample.add_jones Sample.clinic Sample.as_admin))
     = Some Sample.admin
  /\ accounts_named "admin"
       (store_after (@dispatch Sample.toy_bcrypt r_add_doctor Sample.env2
                       Sample.add_jones Sample.clinic Sample.as_admin))
     = 1%nat.
Proof.
  assert (N : NoDup (map Doctor.username (tbl_doctor Sample.clinic)))
    by distinct.
  split; [exact N|]. split; [reflexivity|].
  exact (@admin_stays_unique Sample.toy_bcrypt r_add_doctor Sample.env2
           Sample.add_jones Sample.clinic Sample.as_admin Sample.admin
           N eq_refl).
Defined.

Lemma session_changes_by_login_and_logout_witness :
  session_after (@dispatch Sample.toy_bcrypt r_login Sample.env0
                   (Sample.login_as "dr.smith" "secret") Sample.clinic None)
  <> None
  /\ ((r_login = r_logout
       /\ session_after (@dispatch Sample.toy_bcrypt r_login Sample.env0
                           (Sample.login_as "dr.smith" "secret") Sample.clinic
                           None) = None)
      \/ (r_login = r_login
          /\ method (Sample.login_as "dr.smith" "secret") = POST
          /\ load_user Sample.clinic None = None
          /\ exists user u password,
               get (form (Sample.login_as "dr.smith" "secret")) "username"
               = Some u
               /\ Doctor_by_username u Sample.clinic = Some user
               /\ get (form (Sample.login_as "dr.smith" "secret")) "password"
                  = Some password
               /\ @check_password_hash Sample.toy_bcrypt
                    (Doctor.password_hash user) password = Some true
               /\ session_after
                    (@dispatch Sample.toy_bcrypt r_login Sample.env0
                       (Sample.login_as "dr.smith" "secret") Sample.clinic None)
                  = Some (Doctor.id user))).
Proof.
  assert (D : session_after
                (@dispatch Sample.toy_bcrypt r_login Sample.env0
                   (Sample.login_as "dr.smith" "secret") Sample.clinic None)
              <> None).
  { intros H. vm_compute in H. discriminate H. }
  split; [exact D|].
  exact (@session_changes_by_login_and_logout Sample.toy_bcrypt r_login
           Sample.env0 (Sample.login_as "dr.smith" "secret") Sample.clinic
           None D).
Defined.


Lemma public_id_clash_is_server_error_witness :
  load_user Sample.clinic Sample.as_smith = Some Sample.smith
  /\ method Sample.add_omar = POST
  /\ get (form Sample.add_omar) "name" = Some "Omar"
  /\ get (form Sample.add_omar) "notes" = Some "new"
  /\ In Sample.ahmed (tbl_patient Sample.clinic)
  /\ Patient.patient_id Sample.ahmed = uuid4 Sample.env_clash
  /\ serve (patients Sample.env_clash Sample.add_omar) Sample.clinic
       Sample.as_smith
     = mkOutcome (abort 500) [] Sample.as_smith Sample.clinic.
Proof.
  do 4 (split; [reflexivity|]). split; [now left|]. split; [reflexivity|].
  apply (public_id_clash_is_server_error Sample.env_clash Sample.add_omar
           Sample.clinic Sample.as_smith Sample.smith "Omar" "new"
           Sample.ahmed); try reflexivity.
  now left.
Defined.

Lemma login_binds_the_session_witness :
  load_user Sample.clinic None = None
  /\ method (Sample.login_as "dr.smith" "secret") = POST
  /\ get (form (Sample.login_as "dr.smith" "secret")) "username"
     = Some "dr.smith"
  /\ Doctor_by_username "dr.smith" Sample.clinic = Some Sample.smith
  /\ get (form (Sample.login_as "dr.smith" "secret")) "password"
     = Some "secret"
  /\ @check_password_hash Sample.toy_bcrypt
       (Doctor.password_hash Sample.smith) "secret" = Some true
  /\ NoDup (map Doctor.id (tbl_doctor Sample.clinic))
  /\ serve (@login Sample.toy_bcrypt (Sample.login_as "dr.smith" "secret"))
       Sample.clinic None
     = mkOutcome (redirect ep_dashboard) [] (Some (Doctor.id Sample.smith))
         Sample.clinic
  /\ load_user Sample.clinic
       (session_after
          (serve (@login Sample.toy_bcrypt
                    (Sample.login_as "dr.smith" "secret"))
             Sample.clinic None))
     = Some Sample.smith.
Proof.
  assert (N : NoDup (map Doctor.id (tbl_doctor Sample.clinic))) by distinct.
  do 6 (split; [reflexivity|]). split; [exact N|].
  exact (@login_binds_the_session Sample.toy_bcrypt
           (Sample.login_as "dr.smith" "secret") Sample.clinic None
           "dr.smith" "secret" Sample.smith
           eq_refl eq_refl eq_refl eq_refl eq_refl eq_refl N).
Defined.

Lemma login_skipped_when_logged_in_witness :
  load_user Sample.clinic Sample.as_smith = Some Sample.smith
  /\ serve (@login Sample.toy_bcrypt (Sample.login_as "admin" "admin123"))
       Sample.clinic Sample.as_smith
     = mkOutcome (redirect ep_dashboard) [] Sample.as_smith Sample.clinic.
Proof.
  split; [reflexivity|].
  apply (@login_skipped_when_logged_in Sample.toy_bcrypt
           (Sample.login_as "admin" "admin123") Sample.clinic Sample.as_smith
           Sample.smith).
  reflexivity.
Defined.

Lemma login_without_password_witness :
  load_user Sample.clinic None = None
  /\ method (mkRequest POST [] Sample.no_password) = POST
  /\ get (form (mkRequest POST [] Sample.no_password)) "username"
     = Some "dr.smith"
  /\ get (form (mkRequest POST [] Sample.no_password)) "password" = None
  /\ serve (@login Sample.toy_bcrypt (mkRequest POST [] Sample.no_password))
       Sample.clinic None
     = mkOutcome (abort 400) [] None Sample.clinic.
Proof.
  do 4 (split; [reflexivity|]).
  exact (@login_without_password Sample.toy_bcrypt
           (mkRequest POST [] Sample.no_password) Sample.clinic None
           "dr.smith" eq_refl eq_refl eq_refl eq_refl).
Defined.

Lemma admin_dashboard_roster_witness :
  load_user Sample.clinic Sample.as_admin = Some Sample.admin
  /\ Doctor.username Sample.admin = "admin"
  /\ NoDup (map Doctor.username (tbl_doctor Sample.clinic))
  /\ exists roster,
       serve (dashboard Sample.plain_get) Sample.clinic Sample.as_admin
       = mkOutcome
           (render_template (dashboard_html Sample.admin (Some roster))) []
           Sample.as_admin Sample.clinic
       /\ (forall d, In d roster
                     <-> In d (tbl_doctor Sample.clinic)
                         /\ Doctor.username d <> "admin")
       /\ S (List.length roster) = List.length (tbl_doctor Sample.clinic).
Proof.
  assert (N : NoDup (map Doctor.username (tbl_doctor Sample.clinic)))
    by distinct.
  do 2 (split; [reflexivity|]). split; [exact N|].
  exact (admin_dashboard_roster Sample.plain_get Sample.clinic Sample.as_admin
           Sample.admin eq_refl eq_refl N).
Defined.

Lemma new_patient_listed_for_owner_only_witness :
  load_user Sample.clinic Sample.as_smith = Some Sample.smith
  /\ method Sample.add_omar = POST
  /\ get (form Sample.add_omar) "name" = Some "Omar"
  /\ get (form Sample.add_omar) "notes" = Some "new"
  /\ find (fun p => String.eqb (Patient.patient_id p) (uuid4 Sample.env2))
       (tbl_patient Sample.clinic) = None
  /\ method Sample.plain_get = GET
  /\ truthy (get (args Sample.plain_get) "search") = false
  /\ load_user Sample.clinic Sample.as_admin = Some Sample.admin
  /\ Doctor.id Sample.admin <> Doctor.id Sample.smith
  /\ let st' :=
       mkStore (tbl_doctor Sample.clinic)
         (tbl_patient Sample.clinic ++ [Sample.omar]) in
     serve (patients Sample.env2 Sample.add_omar) Sample.clinic Sample.as_smith
     = mkOutcome (redirect ep_patients)
         ["تم إضافة المريض بنجاح. رقم المريض: " ++ uuid4 Sample.env2]
         Sample.as_smith st'
     /\ exists mine theirs,
          serve (patients Sample.env1 Sample.plain_get) st' Sample.as_smith
          = mkOutcome (render_template (patients_html mine)) []
              Sample.as_smith st'
          /\ In Sample.omar mine
          /\ serve (patients Sample.env1 Sample.plain_get) st' Sample.as_admin
             = mkOutcome (render_template (patients_html theirs)) []
                 Sample.as_admin st'
          /\ ~ In Sample.omar theirs.
Proof.
  assert (D : Doctor.id Sample.admin <> Doctor.id Sample.smith)
    by discriminate.
  do 8 (split; [reflexivity|]). split; [exact D|].
  exact (new_patient_listed_for_owner_only Sample.env2 Sample.env1
           Sample.add_omar Sample.plain_get Sample.clinic Sample.as_smith
           Sample.as_admin Sample.smith Sample.admin "Omar" "new"
           eq_refl eq_refl eq_refl eq_refl eq_refl eq_refl eq_refl eq_refl D).
Defined.

Lemma added_doctor_can_log_in_witness :
  load_user Sample.clinic Sample.as_admin = Some Sample.admin
  /\ Doctor.username Sample.admin = "admin"
  /\ method Sample.add_jones = POST
  /\ get (form Sample.add_jones) "username" = Some "dr.jones"
  /\ get (form Sample.add_jones) "full_name" = Some "Jane Roe"
  /\ get (form Sample.add_jones) "specialty" = Some "GP"
  /\ get (form Sample.add_jones) "password" = Some "pw"
  /\ Doctor_by_username "dr.jones" Sample.clinic = None
  /\ @generate_password_hash Sample.toy_bcrypt (gensalt Sample.env2) "pw"
     = Some "s2pw"
  /\ @check_password_hash Sample.toy_bcrypt "s2pw" "pw" = Some true
  /\ method (Sample.login_as "dr.jones" "pw") = POST
  /\ get (form (Sample.login_as "dr.jones" "pw")) "username" = Some "dr.jones"
  /\ get (form (Sample.login_as "dr.jones" "pw")) "password" = Some "pw"
  /\ let st' :=
       store_after
         (serve (@add_doctor Sample.toy_bcrypt Sample.env2 Sample.add_jones)
            Sample.clinic Sample.as_admin) in
     st' = mkStore (tbl_doctor Sample.clinic ++ [Sample.jones])
             (tbl_patient Sample.clinic)
     /\ serve (@login Sample.toy_bcrypt (Sample.login_as "dr.jones" "pw"))
          st' None
        = mkOutcome (redirect ep_dashboard) [] (Some (Doctor.id Sample.jones))
            st'
     /\ load_user st' (Some (Doctor.id Sample.jones)) = Some Sample.jones.
Proof.
  do 13 (split; [reflexivity|]).
  exact (@added_doctor_can_log_in Sample.toy_bcrypt Sample.env2
           Sample.add_jones (Sample.login_as "dr.jones" "pw") Sample.clinic
           Sample.as_admin Sample.admin "dr.jones" "Jane Roe" "GP" "pw" "s2pw"
           eq_refl eq_refl eq_refl eq_refl eq_refl eq_refl eq_refl eq_refl
           eq_refl eq_refl eq_refl eq_refl eq_refl).
Defined.

Lemma default_admin_can_log_in_witness :
  Doctor_by_username "admin" empty_store = None
  /\ @generate_password_hash Sample.toy_bcrypt (gensalt Sample.env0)
       "admin123" = Some "s0admin123"
  /\ @check_password_hash Sample.toy_bcrypt "s0admin123" "admin123"
     = Some true
  /\ method (Sample.login_as "admin" "admin123") = POST
  /\ get (form (Sample.login_as "admin" "admin123")) "username" = Some "admin"
  /\ get (form (Sample.login_as "admin" "admin123")) "password"
     = Some "admin123"
  /\ method Sample.plain_get = GET
  /\ let st' := @bootstrap Sample.toy_bcrypt Sample.env0 empty_store in
     let out :=
       serve (@login Sample.toy_bcrypt (Sample.login_as "admin" "admin123"))
         st' None in
     exists a,
       response out = redirect ep_dashboard
       /\ load_user st' (session_after out) = Some a
       /\ Doctor.username a = "admin"
       /\ response (serve (@add_doctor Sample.toy_bcrypt Sample.env1
                             Sample.plain_get) st' (session_after out))
          = render_template (add_doctor_html (Doctor_except_admin st')).
Proof.
  do 7 (split; [reflexivity|]).
  exact (@default_admin_can_log_in Sample.toy_bcrypt Sample.env0 Sample.env1
           (Sample.login_as "admin" "admin123") Sample.plain_get empty_store
           "s0admin123" eq_refl eq_refl eq_refl eq_refl eq_refl eq_refl
           eq_refl).
Defined.

Lemma roster_gains_the_new_doctor_witness :
  load_user Sample.clinic Sample.as_admin = Some Sample.admin
  /\ Doctor.username Sample.admin = "admin"
  /\ method Sample.add_jones = POST
  /\ get (form Sample.add_jones) "username" = Some "dr.jones"
  /\ get (form Sample.add_jones) "full_name" = Some "Jane Roe"
  /\ get (form Sample.add_jones) "specialty" = Some "GP"
  /\ get (form Sample.add_jones) "password" = Some "pw"
  /\ Doctor_by_username "dr.jones" Sample.clinic = None
  /\ @generate_password_hash Sample.toy_bcrypt (gensalt Sample.env2) "pw"
     = Some "s2pw"
  /\ let out :=
       serve (@add_doctor Sample.toy_bcrypt Sample.env2 Sample.add_jones)
         Sample.clinic Sample.as_admin in
     Doctor_except_admin (store_after out) = [Sample.smith; Sample.jones]
     /\ serve (dashboard Sample.plain_get) (store_after out)
          (session_after out)
        = mkOutcome
            (render_template
               (dashboard_html Sample.admin
                  (Some [Sample.smith; Sample.jones])))
            [] Sample.as_admin (store_after out).
Proof.
  do 9 (split; [reflexivity|]).
  exact (@roster_gains_the_new_doctor Sample.toy_bcrypt Sample.env2
           Sample.add_jones Sample.plain_get Sample.clinic Sample.as_admin
           Sample.admin "dr.jones" "Jane Roe" "GP" "pw" "s2pw"
           eq_refl eq_refl eq_refl eq_refl eq_refl eq_refl eq_refl eq_refl
           eq_refl).
Defined.
